(** * geomeppy.builder: deriving a building envelope from a footprint

    A shallow embedding of [geomeppy/builder.py] (classes [Zone] and [Block],
    function [make_wall]) and the properties of its elevation arithmetic and
    surface generation.

    Numbers.  [num_stories] and [below_ground_stories] are Python ints and are
    modelled as [Z].  Heights and coordinates are Python floats.  The
    surfaces are modelled over exact rationals [Q]: their structure (list
    lengths, vertex order, placeholders, which expression lands where) does
    not depend on rounding, and statements about it are made there.  The
    elevation arithmetic is modelled a second time in [Binary64], on the
    kernel's binary64 floats.  What is said of the values of the elevations
    is said there, or in the exact model in a form that rounding keeps: an
    order that is not strict, a sum with zero, two occurrences of one
    expression.  True division by zero raises [ZeroDivisionError] in both
    models.

    Errors.  A property that can raise returns a [result]; properties that
    cannot raise are plain functions. *)

From Stdlib Require Import String ZArith QArith Qfield Lia Lqa Bool List.
From Stdlib Require Import PrimFloat.
From Stdlib Require Uint63.
Import ListNotations.

(** ** Exceptions as values *)

Inductive exn : Type :=
| ZeroDivisionError
| IndexError.

Inductive result (A : Type) : Type :=
| Ok (a : A)
| Raise (e : exn).

Arguments Ok {A} a.
Arguments Raise {A} e.

Definition bind {A B : Type} (m : result A) (k : A -> result B) : result B :=
  match m with
  | Ok a => k a
  | Raise e => Raise e
  end.

Notation "x <- m ;; k" := (bind m (fun x => k))
  (at level 61, m at next level, right associativity).

(** [range(n)] for an int [n]: [0, 1, ..., n-1], empty when [n <= 0]. *)
Definition range (n : Z) : list Z := map Z.of_nat (seq 0 (Z.to_nat n)).

(** ** Geometry primitives *)

Module Polygons.

(** Modelled from the spec: [geomeppy.vectors.Vector3D] is not under src/.
    A 3-D point or displacement; [v + w] adds component by component. *)
Record Vector3D : Type := V3 { vx : Q; vy : Q; vz : Q }.

Definition vadd (v w : Vector3D) : Vector3D :=
  V3 (vx v + vx w) (vy v + vy w) (vz v + vz w).

(** Modelled from the spec: [geomeppy.polygons.Polygon3D] is not under src/.
    A polygon is the ordered sequence of its vertices (spec, section 6:
    construction from an ordered sequence of 3-D points). *)
Definition Polygon3D : Type := list Vector3D.

(** Modelled from the spec: [Polygon3D.__add__], addition of a displacement
    to every vertex. *)
Definition translate (p : Polygon3D) (d : Vector3D) : Polygon3D :=
  map (fun v => vadd v d) p.

(** Modelled from the spec: [Polygon3D.invert_orientation], the polygon with
    reversed winding. *)
Definition invert_orientation (p : Polygon3D) : Polygon3D := rev p.

(** Modelled from the spec: an edge of a polygon, an ordered endpoint pair. *)
Record Segment : Type := Seg { p1 : Vector3D; p2 : Vector3D }.

(** Modelled from the spec: [Polygon3D.edges], the consecutive point pairs,
    wrapping from the last vertex to the first. *)
Definition edges (p : Polygon3D) : list Segment :=
  map (fun e => Seg (fst e) (snd e)) (combine p (tl p ++ firstn 1 p)).

Definition cross (v w : Vector3D) : Vector3D :=
  V3 (vy v * vz w - vz v * vy w)
     (vz v * vx w - vx v * vz w)
     (vx v * vy w - vy v * vx w).

Definition vzero : Vector3D := V3 0 0 0.

(** Sum of the cross products of consecutive vertices: twice the vector area
    of a planar polygon. *)
Definition newell (p : Polygon3D) : Vector3D :=
  fold_right (fun e acc => vadd (cross (p1 e) (p2 e)) acc) vzero (edges p).

Definition norm_sq (v : Vector3D) : Q :=
  vx v * vx v + vy v * vy v + vz v * vz v.

(** Modelled from the spec: the area query of [Polygon3D].  The area of a
    planar polygon is half the Euclidean norm of [newell p], irrational in
    general; the model keeps its square, which is rational and has the same
    sign. *)
Definition area_sq (p : Polygon3D) : Q := norm_sq (newell p) / 4.

(** The test [s.area > 0]: an area is never negative, so it is positive
    exactly when its square is. *)
Definition area_gt_0 (p : Polygon3D) : bool :=
  if Qlt_le_dec 0 (area_sq p) then true else false.

End Polygons.

Import Polygons.

(** ** Surface groups

    One storey's floors, ceilings or roofs entry is a Python value: a list
    whose items are polygons or [None], or (the last ceilings entry) a
    string. *)
Inductive group : Type :=
| GList (items : list (option Polygon3D))
| GStr (s : string).

(** ** class Block *)

Definition point : Type := (Q * Q)%type.

(** [==] on two coordinate tuples: equal components. *)
Definition point_eqb (a b : point) : bool :=
  Qeq_bool (fst a) (fst b) && Qeq_bool (snd a) (snd b).

Record Block : Type := mkBlock {
  name : string;
  coordinates : list point;
  height : Q;
  num_stories : Z;
  num_below_ground_stories : Z;
  below_ground_storey_height : Q
}.

(** [Block.__init__]: [coordinates[0]] raises [IndexError] on an empty list;
    when the first and the last point are equal the last one is popped. *)
Definition Block_init (name : string) (coordinates : list point) (height : Q)
    (num_stories below_ground_stories : Z) (below_ground_storey_height : Q)
    : result Block :=
  match coordinates with
  | [] => Raise IndexError
  | c0 :: _ =>
      let coordinates' :=
        if point_eqb c0 (last coordinates c0)
        then removelast coordinates
        else coordinates in
      Ok (mkBlock name coordinates' height num_stories below_ground_stories
                  below_ground_storey_height)
  end.

(** The constructor with its default arguments: one storey, no basement,
    basement storey height 2.5. *)
Definition Block_init_default (name : string) (coordinates : list point)
    (height : Q) : result Block :=
  Block_init name coordinates height 1 0 (5 # 2).

Definition footprint (b : Block) : Polygon3D :=
  map (fun v : point => V3 (fst v) (snd v) 0) (coordinates b).

Definition storey_height (b : Block) : result Q :=
  let d := (num_stories b - num_below_ground_stories b)%Z in
  if (d =? 0)%Z then Raise ZeroDivisionError
  else Ok (height b / inject_Z d).

Definition lowest_floor_level (b : Block) : Q :=
  - (inject_Z (num_below_ground_stories b) * below_ground_storey_height b).

Definition floor_heights (b : Block) : result (list Q) :=
  let lfl := lowest_floor_level b in
  sh <- storey_height b ;;
  Ok (map (fun i => lfl + sh * inject_Z i) (range (num_stories b))).

Definition ceiling_heights (b : Block) : result (list Q) :=
  let lfl := lowest_floor_level b in
  sh <- storey_height b ;;
  Ok (map (fun i => lfl + sh * inject_Z (i + 1)) (range (num_stories b))).

Definition make_wall (edge : Segment) (fh ch : Q) : Polygon3D :=
  [ vadd (p1 edge) (V3 0 0 ch);
    vadd (p1 edge) (V3 0 0 fh);
    vadd (p2 edge) (V3 0 0 fh);
    vadd (p2 edge) (V3 0 0 ch) ].

Definition walls (b : Block) : result (list (list Polygon3D)) :=
  fhs <- floor_heights b ;;
  chs <- ceiling_heights b ;;
  Ok (map (fun hc => map (fun edge => make_wall edge (fst hc) (snd hc))
                         (edges (footprint b)))
          (combine fhs chs)).

Definition floors (b : Block) : result (list group) :=
  fhs <- floor_heights b ;;
  Ok (map (fun fh =>
             GList [Some (translate (invert_orientation (footprint b))
                                    (V3 0 0 fh))])
          fhs).

Definition ceilings (b : Block) : result (list group) :=
  chs <- ceiling_heights b ;;
  Ok (map (fun ch => GList [Some (translate (footprint b) (V3 0 0 ch))])
          (removelast chs)
      ++ [GStr EmptyString]).

Definition roofs (b : Block) : result (list group) :=
  chs <- ceiling_heights b ;;
  Ok (map (fun _ => GList [None]) (removelast chs)
      ++ [GList [Some (translate (footprint b) (V3 0 0 (height b)))]]).

(** The dict returned by [Block.surfaces]. *)
Record BlockSurfaces : Type := mkBlockSurfaces {
  bs_walls : list (list Polygon3D);
  bs_ceilings : list group;
  bs_roofs : list group;
  bs_floors : list group
}.

Definition surfaces (b : Block) : result BlockSurfaces :=
  w <- walls b ;;
  c <- ceilings b ;;
  r <- roofs b ;;
  f <- floors b ;;
  Ok (mkBlockSurfaces w c r f).

(** One dict of the list returned by [Block.stories]. *)
Record Storey : Type := mkStorey {
  storey_no : Z;
  st_floors : group;
  st_ceilings : group;
  st_walls : list Polygon3D;
  st_roofs : group
}.

(** The loop of [Block.stories]: [zip] stops at the shortest list and
    [floor_no] grows by one per storey. *)
Fixpoint zip_stories (floor_no : Z) (fs cs : list group)
    (ws : list (list Polygon3D)) (rs : list group) : list Storey :=
  match fs, cs, ws, rs with
  | f :: fs', c :: cs', w :: ws', r :: rs' =>
      mkStorey floor_no f c w r :: zip_stories (floor_no + 1) fs' cs' ws' rs'
  | _, _, _, _ => []
  end.

Definition stories (b : Block) : result (list Storey) :=
  let floor_no :=
    if negb (num_below_ground_stories b =? 0)%Z
    then (- num_below_ground_stories b)%Z
    else 0%Z in
  fs <- floors b ;;
  cs <- ceilings b ;;
  ws <- walls b ;;
  rs <- roofs b ;;
  Ok (zip_stories floor_no fs cs ws rs).

(** ** class Zone *)

(** The keys of the [surfaces] dict that [Zone.__init__] reads. *)
Record SurfaceDict : Type := mkSurfaceDict {
  sd_walls : list Polygon3D;
  sd_floors : group;
  sd_roofs : group;
  sd_ceilings : group
}.

(** A storey dict passed as [surfaces]; the extra key [storey_no] is not
    read. *)
Definition storey_surfaces (s : Storey) : SurfaceDict :=
  mkSurfaceDict (st_walls s) (st_floors s) (st_roofs s) (st_ceilings s).

Record Zone : Type := mkZone {
  zone_name : string;
  zone_walls : list Polygon3D;
  zone_floors : group;
  zone_roofs : group;
  zone_ceilings : group
}.

Definition Zone_init (name : string) (surfaces : SurfaceDict) : Zone :=
  mkZone name
         (filter area_gt_0 (sd_walls surfaces))
         (sd_floors surfaces)
         (sd_roofs surfaces)
         (sd_ceilings surfaces).

(** ** Notions used in the statements *)

(** The footprint point of coordinate tuple [a], raised by the z-offset
    [z]: its coordinates are [x + 0], [y + 0] and [0 + z]. *)
Definition raised (a : point) (z : Q) : Vector3D :=
  vadd (V3 (fst a) (snd a) 0) (V3 0 0 z).

(** The polygons a surface group holds; a placeholder holds none. *)
Definition polygons_of (g : group) : list Polygon3D :=
  match g with
  | GList items =>
      flat_map (fun o => match o with Some p => [p] | None => [] end) items
  | GStr _ => []
  end.

(** An edge of zero length: both endpoints are the same point. *)
Definition zero_length (e : Segment) : bool :=
  Qeq_bool (vx (p1 e)) (vx (p2 e)) && Qeq_bool (vy (p1 e)) (vy (p2 e))
  && Qeq_bool (vz (p1 e)) (vz (p2 e)).

(** The points of a list, each kept once. *)
Fixpoint distinct_points (l : list point) : list point :=
  match l with
  | [] => []
  | a :: t =>
      if existsb (point_eqb a) t then distinct_points t
      else a :: distinct_points t
  end.

(** Footprints used as examples: a 10 by 10 square, and the same square
    with its first corner given twice. *)
Definition square : list point := [(0, 0); (10, 0); (10, 10); (0, 10)].

Definition doubled_corner : list point :=
  [(0, 0); (0, 0); (10, 0); (10, 10); (0, 10)].

(** ** The coordinate list as a shared object

    [Block.__init__] pops the closing point from the list object it is
    given and keeps that same object as [self.coordinates].  Here a heap
    maps each list reference to its current contents. *)

Definition ref : Type := nat.

Definition heap : Type := ref -> list point.

Definition heap_set (h : heap) (r : ref) (l : list point) : heap :=
  fun r' => if Nat.eqb r' r then l else h r'.

Record BlockObj : Type := mkBlockObj {
  obj_name : string;
  obj_coordinates : ref;
  obj_height : Q;
  obj_num_stories : Z;
  obj_num_below_ground_stories : Z;
  obj_below_ground_storey_height : Q
}.

(** [Block.__init__] on the heap: the pop changes the list in place, and
    the block keeps the reference. *)
Definition Block_init_obj (h : heap) (name : string) (coordinates : ref)
    (height : Q) (num_stories below_ground_stories : Z)
    (below_ground_storey_height : Q) : result (heap * BlockObj) :=
  match h coordinates with
  | [] => Raise IndexError
  | c0 :: _ =>
      let h' :=
        if point_eqb c0 (last (h coordinates) c0)
        then heap_set h coordinates (removelast (h coordinates))
        else h in
      Ok (h', mkBlockObj name coordinates height num_stories
                         below_ground_stories below_ground_storey_height)
  end.

(** The attributes of a block object as read in heap [h]. *)
Definition view (h : heap) (o : BlockObj) : Block :=
  mkBlock (obj_name o) (h (obj_coordinates o)) (obj_height o)
          (obj_num_stories o) (obj_num_below_ground_stories o)
          (obj_below_ground_storey_height o).

(** A heap used as an example: list 0 is a triangle closed twice, every
    other list is empty. *)
Definition example_heap : heap :=
  fun r => match r with
           | O => [(0, 0); (10, 0); (10, 10); (0, 0); (0, 0)]
           | _ => []
           end.

(** ** The elevation arithmetic in binary64

    [storey_height], [lowest_floor_level], [floor_heights] and
    [ceiling_heights] once more, every operation rounded as the program
    rounds it. *)

Module Binary64.

(** An int operand of a float operation is converted first.  The conversion
    is the correctly rounded one for [|z| < 2^63]. *)
Definition float_of_int (z : Z) : float :=
  match z with
  | Z0 => 0%float
  | Zpos p => of_uint63 (Uint63.of_Z (Zpos p))
  | Zneg p => (- of_uint63 (Uint63.of_Z (Zpos p)))%float
  end.

Record Block : Type := mkBlock {
  name : string;
  coordinates : list (float * float);
  height : float;
  num_stories : Z;
  num_below_ground_stories : Z;
  below_ground_storey_height : float
}.

Definition storey_height (b : Block) : result float :=
  let d := (num_stories b - num_below_ground_stories b)%Z in
  if (d =? 0)%Z then Raise ZeroDivisionError
  else Ok (height b / float_of_int d)%float.

Definition lowest_floor_level (b : Block) : float :=
  (- (float_of_int (num_below_ground_stories b)
      * below_ground_storey_height b))%float.

Definition floor_heights (b : Block) : result (list float) :=
  let lfl := lowest_floor_level b in
  sh <- storey_height b ;;
  Ok (map (fun i => (lfl + sh * float_of_int i)%float)
          (range (num_stories b))).

Definition ceiling_heights (b : Block) : result (list float) :=
  let lfl := lowest_floor_level b in
  sh <- storey_height b ;;
  Ok (map (fun i => (lfl + sh * float_of_int (i + 1))%float)
          (range (num_stories b))).

(** The 10 by 10 square as float coordinates. *)
Definition square : list (float * float) :=
  [(0, 0); (10, 0); (10, 10); (0, 10)]%float.

End Binary64.

(** ** Lists: [range], indexing, [removelast] *)

Lemma range_length (n : Z) : length (range n) = Z.to_nat n.
Proof. unfold range. now rewrite length_map, length_seq. Qed.

Lemma nth_error_range (n : Z) (i : nat) :
  (i < Z.to_nat n)%nat -> nth_error (range n) i = Some (Z.of_nat i).
Proof.
  intros Hi. unfold range.
  rewrite nth_error_map, nth_error_seq.
  destruct (Nat.ltb_spec i (Z.to_nat n)) as [_ | Hge]; [reflexivity | lia].
Qed.

Lemma nth_error_map_range (A : Type) (f : Z -> A) (n : Z) (i : nat) :
  (i < Z.to_nat n)%nat ->
  nth_error (map f (range n)) i = Some (f (Z.of_nat i)).
Proof.
  intros Hi. now rewrite nth_error_map, nth_error_range.
Qed.

Lemma removelast_length (A : Type) (l : list A) :
  length (removelast l) = pred (length l).
Proof.
  induction l as [| a [| a' l'] IH]; try reflexivity.
  change (removelast (a :: a' :: l')) with (a :: removelast (a' :: l')).
  cbn [length] in *. now rewrite IH.
Qed.

Lemma nth_error_removelast (A : Type) (l : list A) (i : nat) :
  (S i < length l)%nat -> nth_error (removelast l) i = nth_error l i.
Proof.
  revert i. induction l as [| a [| a' l'] IH]; intros i Hi.
  - inversion Hi.
  - cbn in Hi. lia.
  - change (removelast (a :: a' :: l')) with (a :: removelast (a' :: l')).
    destruct i as [| i]; [reflexivity |].
    cbn [nth_error]. apply IH. cbn [length] in *. lia.
Qed.

(** ** Elevation arithmetic *)

Lemma storey_height_defined (b : Block) :
  (num_stories b - num_below_ground_stories b <> 0)%Z ->
  storey_height b =
  Ok (height b / inject_Z (num_stories b - num_below_ground_stories b)).
Proof.
  intros Hd. unfold storey_height.
  destruct (Z.eqb_spec (num_stories b - num_below_ground_stories b) 0);
    [contradiction | reflexivity].
Qed.

Lemma storey_height_undefined (b : Block) :
  (num_stories b - num_below_ground_stories b = 0)%Z ->
  storey_height b = Raise ZeroDivisionError.
Proof. intros Hd. unfold storey_height. now rewrite Hd. Qed.

Lemma floor_heights_defined (b : Block) :
  (num_stories b - num_below_ground_stories b <> 0)%Z ->
  floor_heights b =
  Ok (map (fun i => lowest_floor_level b
                    + height b
                      / inject_Z (num_stories b - num_below_ground_stories b)
                      * inject_Z i)
          (range (num_stories b))).
Proof.
  intros Hd. unfold floor_heights. now rewrite storey_height_defined.
Qed.

Lemma ceiling_heights_defined (b : Block) :
  (num_stories b - num_below_ground_stories b <> 0)%Z ->
  ceiling_heights b =
  Ok (map (fun i => lowest_floor_level b
                    + height b
                      / inject_Z (num_stories b - num_below_ground_stories b)
                      * inject_Z (i + 1))
          (range (num_stories b))).
Proof.
  intros Hd. unfold ceiling_heights. now rewrite storey_height_defined.
Qed.

(** C1, as the code has it.  For a block with height H, N >= 1 storeys of
    which 0 <= B < N are below ground, and basement storey height G,
    [floor_heights] and [ceiling_heights] return lists of length N whose
    entries are the binary64 values of [L + S*i] and [L + S*(i+1)], where
    [L = -(B*G)] and [S = H/(N-B)] are computed in binary64 too; G enters
    only through L.  Nothing is said of the difference of the two. *)
Theorem C1_floor_and_ceiling_heights (b : Binary64.Block) :
  let H := Binary64.height b in
  let N := Binary64.num_stories b in
  let B := Binary64.num_below_ground_stories b in
  let G := Binary64.below_ground_storey_height b in
  let L := (- (Binary64.float_of_int B * G))%float in
  let S := (H / Binary64.float_of_int (N - B))%float in
  (1 <= N)%Z -> (0 <= B < N)%Z ->
  exists fhs chs : list float,
    Binary64.floor_heights b = Ok fhs /\
    Binary64.ceiling_heights b = Ok chs /\
    Z.of_nat (length fhs) = N /\ Z.of_nat (length chs) = N /\
    forall i : nat, (Z.of_nat i < N)%Z ->
      nth_error fhs i
      = Some (L + S * Binary64.float_of_int (Z.of_nat i))%float /\
      nth_error chs i
      = Some (L + S * Binary64.float_of_int (Z.of_nat i + 1))%float.
Proof.
  intros H N B G L S HN HB.
  assert (Hs : Binary64.storey_height b = Ok S).
  { unfold Binary64.storey_height. fold N B H.
    destruct (Z.eqb_spec (N - B) 0) as [E | _]; [lia | reflexivity]. }
  exists (map (fun i => (L + S * Binary64.float_of_int i)%float) (range N)),
         (map (fun i => (L + S * Binary64.float_of_int (i + 1))%float)
              (range N)).
  split; [unfold Binary64.floor_heights; now rewrite Hs |].
  split; [unfold Binary64.ceiling_heights; now rewrite Hs |].
  rewrite !length_map, !range_length.
  split; [lia |]. split; [lia |].
  intros i Hi.
  assert (Hi' : (i < Z.to_nat N)%nat) by lia.
  split; now rewrite nth_error_map_range.
Qed.

Lemma C1_floor_and_ceiling_heights_witness :
  let b := Binary64.mkBlock "block" Binary64.square 9 3 1 2.5 in
  exists fhs chs : list float,
    Binary64.floor_heights b = Ok fhs /\
    Binary64.ceiling_heights b = Ok chs /\
    fhs = [-2.5; 2; 6.5]%float /\ chs = [2; 6.5; 11]%float.
Proof.
  intro b.
  assert (HN : (1 <= Binary64.num_stories b)%Z) by (cbn; lia).
  assert (HB : (0 <= Binary64.num_below_ground_stories b
                < Binary64.num_stories b)%Z) by (cbn; lia).
  destruct (C1_floor_and_ceiling_heights b HN HB)
    as (fhs & chs & Hf & Hc & _).
  exists fhs, chs. split; [exact Hf |]. split; [exact Hc |].
  vm_compute in Hf, Hc. split; congruence.
Defined.

(** C1 as stated fails on the difference: with H = 10, N = 3, B = 0 the
    storey height is 10/3, the top storey runs from 6.666666666666667 to
    10, and its height 10 - 6.666666666666667 is not equal to 10/3. *)
Lemma C1_storey_difference_is_rounded :
  let b := Binary64.mkBlock "block" Binary64.square 10 3 0 2.5 in
  exists (fhs chs : list float) (f c : float),
    Binary64.floor_heights b = Ok fhs /\
    Binary64.ceiling_heights b = Ok chs /\
    length fhs = 3%nat /\ length chs = 3%nat /\
    nth_error fhs 2 = Some f /\ nth_error chs 2 = Some c /\
    (c - f
     =? Binary64.height b
        / Binary64.float_of_int
            (Binary64.num_stories b
             - Binary64.num_below_ground_stories b))%float = false.
Proof.
  intro b. eexists. eexists. eexists. eexists.
  split; [vm_compute; reflexivity |].
  split; [vm_compute; reflexivity |].
  split; [reflexivity |]. split; [reflexivity |].
  split; [reflexivity |]. split; [reflexivity |].
  vm_compute. reflexivity.
Qed.

(** A positive height does not keep the storeys from being flat: the
    smallest positive float divided by 3 rounds to zero, and every floor
    and ceiling elevation is then 0. *)
Lemma smallest_height_gives_flat_storeys :
  let b := Binary64.mkBlock "block" Binary64.square 0x1p-1074 3 0 2.5 in
  (0 <? Binary64.height b)%float = true /\
  Binary64.storey_height b = Ok 0%float /\
  Binary64.floor_heights b = Ok [0; 0; 0]%float /\
  Binary64.ceiling_heights b = Ok [0; 0; 0]%float.
Proof.
  intro b. repeat split; vm_compute; reflexivity.
Qed.

(** ** Which properties raise

    Every derived property except [footprint] and [lowest_floor_level] reads
    [storey_height] first, so all of them raise together. *)

Section DerivedProperties.

Variable b : Block.

Let d : Z := (num_stories b - num_below_ground_stories b)%Z.

Lemma walls_defined :
  d <> 0%Z ->
  exists fhs chs,
    floor_heights b = Ok fhs /\ ceiling_heights b = Ok chs /\
    walls b =
    Ok (map (fun hc => map (fun edge => make_wall edge (fst hc) (snd hc))
                           (edges (footprint b)))
            (combine fhs chs)).
Proof.
  intros Hd. eexists. eexists.
  split; [apply floor_heights_defined; exact Hd |].
  split; [apply ceiling_heights_defined; exact Hd |].
  unfold walls.
  rewrite floor_heights_defined, ceiling_heights_defined by exact Hd.
  reflexivity.
Qed.

Lemma floors_defined :
  d <> 0%Z ->
  exists fhs,
    floor_heights b = Ok fhs /\
    floors b =
    Ok (map (fun fh =>
               GList [Some (translate (invert_orientation (footprint b))
                                      (V3 0 0 fh))])
            fhs).
Proof.
  intros Hd. eexists.
  split; [apply floor_heights_defined; exact Hd |].
  unfold floors. rewrite floor_heights_defined by exact Hd. reflexivity.
Qed.

Lemma ceilings_defined :
  d <> 0%Z ->
  exists chs,
    ceiling_heights b = Ok chs /\
    ceilings b =
    Ok (map (fun ch => GList [Some (translate (footprint b) (V3 0 0 ch))])
            (removelast chs)
        ++ [GStr EmptyString]).
Proof.
  intros Hd. eexists.
  split; [apply ceiling_heights_defined; exact Hd |].
  unfold ceilings. rewrite ceiling_heights_defined by exact Hd. reflexivity.
Qed.

Lemma roofs_defined :
  d <> 0%Z ->
  exists chs,
    ceiling_heights b = Ok chs /\
    roofs b =
    Ok (map (fun _ => GList [None]) (removelast chs)
        ++ [GList [Some (translate (footprint b) (V3 0 0 (height b)))]]).
Proof.
  intros Hd. eexists.
  split; [apply ceiling_heights_defined; exact Hd |].
  unfold roofs. rewrite ceiling_heights_defined by exact Hd. reflexivity.
Qed.

Lemma heights_undefined :
  d = 0%Z ->
  floor_heights b = Raise ZeroDivisionError /\
  ceiling_heights b = Raise ZeroDivisionError.
Proof.
  intros Hd. unfold floor_heights, ceiling_heights.
  now rewrite storey_height_undefined.
Qed.

Lemma surfaces_undefined :
  d = 0%Z ->
  walls b = Raise ZeroDivisionError /\
  floors b = Raise ZeroDivisionError /\
  ceilings b = Raise ZeroDivisionError /\
  roofs b = Raise ZeroDivisionError /\
  surfaces b = Raise ZeroDivisionError /\
  stories b = Raise ZeroDivisionError.
Proof.
  intros Hd. destruct (heights_undefined Hd) as [Hf Hc].
  assert (Hw : walls b = Raise ZeroDivisionError)
    by (unfold walls; now rewrite Hf).
  assert (Hfl : floors b = Raise ZeroDivisionError)
    by (unfold floors; now rewrite Hf).
  assert (Hce : ceilings b = Raise ZeroDivisionError)
    by (unfold ceilings; now rewrite Hc).
  assert (Hr : roofs b = Raise ZeroDivisionError)
    by (unfold roofs; now rewrite Hc).
  repeat split; try assumption.
  - unfold surfaces. now rewrite Hw.
  - unfold stories. now rewrite Hfl.
Qed.

End DerivedProperties.

(** ** The roof and the topmost ceiling *)

(** In exact arithmetic the topmost ceiling elevation [L + S*N] exceeds the
    roof elevation [H] by [B * (S - G)]. *)
Lemma topmost_ceiling_minus_roof (H G : Q) (N B : Z) :
  (N - B <> 0)%Z ->
  - (inject_Z B * G) + H / inject_Z (N - B) * inject_Z N - H
  == inject_Z B * (H / inject_Z (N - B) - G).
Proof.
  intros Hd.
  assert (Hq : ~ inject_Z (N - B) == 0).
  { intro E. apply Hd. apply (inject_Z_injective (N - B) 0). exact E. }
  assert (HN : inject_Z N == inject_Z (N - B) + inject_Z B).
  { rewrite <- inject_Z_plus. now replace (N - B + B)%Z with N by lia. }
  rewrite HN. field. exact Hq.
Qed.

Lemma Qminus_zero_eq (x y : Q) : x - y == 0 -> x == y.
Proof.
  intros E. setoid_replace x with (x - y + y) by ring. rewrite E. ring.
Qed.

(** In exact arithmetic the topmost ceiling is at roof level exactly when
    there is no basement or the above-ground storey height equals the
    basement storey height. *)
Lemma topmost_ceiling_meets_roof_iff (H G : Q) (N B : Z) :
  (N - B <> 0)%Z ->
  (- (inject_Z B * G) + H / inject_Z (N - B) * inject_Z N == H
   <-> B = 0%Z \/ H / inject_Z (N - B) == G).
Proof.
  intros Hd. pose proof (topmost_ceiling_minus_roof H G N B Hd) as E.
  split.
  - intros Ht. rewrite Ht in E.
    assert (E0 : inject_Z B * (H / inject_Z (N - B) - G) == 0)
      by (rewrite <- E; ring).
    apply Qmult_integral in E0. destruct E0 as [E0 | E0].
    + left. apply (inject_Z_injective B 0). exact E0.
    + right. apply Qminus_zero_eq. exact E0.
  - intros HB. apply Qminus_zero_eq. rewrite E.
    destruct HB as [HB | HS].
    + subst B. change (inject_Z 0) with 0. ring.
    + rewrite HS. ring.
Qed.

(** C2.  The envelope is not closed when there is a basement whose storey
    height differs from the above-ground one: for the square footprint with
    H = 9, N = 3, B = 1, G = 2.5 the topmost ceiling, up to which the topmost
    walls reach, is at 11 while the roof is the footprint at 9. *)
Theorem C2_roof_below_topmost_ceiling :
  let b := mkBlock "block" square 9 3 1 (5 # 2) in
  exists (chs : list Q) (top : Q) (rs : list group),
    ceiling_heights b = Ok chs /\
    nth_error chs 2 = Some top /\ top == 11 /\
    roofs b = Ok rs /\
    nth_error rs 2 = Some (GList [Some (translate (footprint b) (V3 0 0 9))]) /\
    ~ top == height b.
Proof.
  intro b. eexists. eexists. eexists.
  split; [vm_compute; reflexivity |].
  split; [reflexivity |].
  split; [reflexivity |].
  split; [vm_compute; reflexivity |].
  split; [reflexivity |].
  intro E. vm_compute in E. discriminate E.
Qed.

(** ** Storey counts with N - B <= 0 *)

Lemma Qdiv_pos_neg (h : Q) (d : Z) : 0 < h -> (d < 0)%Z -> h / inject_Z d < 0.
Proof.
  intros Hh Hd.
  assert (Hq : ~ inject_Z d == 0).
  { intro E. apply (inject_Z_injective d 0) in E. lia. }
  assert (Hpos : 0 < inject_Z (- d)).
  { change 0 with (inject_Z 0). rewrite <- Zlt_Qlt. lia. }
  assert (Hdiv : 0 < h / inject_Z (- d)).
  { apply Qlt_shift_div_l; [exact Hpos |]. now rewrite Qmult_0_l. }
  assert (E : h / inject_Z d == - (h / inject_Z (- d))).
  { rewrite inject_Z_opp. field. exact Hq. }
  rewrite E. apply Qopp_lt_compat in Hdiv. exact Hdiv.
Qed.

Lemma Qplus_neg_lt (x s : Q) : s < 0 -> x + s < x.
Proof. intros Hs. lra. Qed.

(** The constructor checks nothing but the presence of a first point. *)
Lemma Block_init_accepts (nm : string) (c : point) (cs : list point)
    (H : Q) (N B : Z) (G : Q) :
  exists b : Block,
    Block_init nm (c :: cs) H N B G = Ok b /\
    name b = nm /\ height b = H /\ num_stories b = N /\
    num_below_ground_stories b = B /\ below_ground_storey_height b = G /\
    coordinates b =
    (if point_eqb c (last (c :: cs) c) then removelast (c :: cs) else c :: cs).
Proof.
  eexists. split; [reflexivity |]. cbn. repeat split; reflexivity.
Qed.

(** Without a check of the storey counts, a zero divisor raises in every
    derived property and a negative one goes through. *)
Lemma no_configuration_check (b : Block) :
  let H := height b in
  let N := num_stories b in
  let B := num_below_ground_stories b in
  ((N - B = 0)%Z ->
     storey_height b = Raise ZeroDivisionError /\
     floor_heights b = Raise ZeroDivisionError /\
     ceiling_heights b = Raise ZeroDivisionError /\
     walls b = Raise ZeroDivisionError /\
     floors b = Raise ZeroDivisionError /\
     ceilings b = Raise ZeroDivisionError /\
     roofs b = Raise ZeroDivisionError /\
     surfaces b = Raise ZeroDivisionError /\
     stories b = Raise ZeroDivisionError) /\
  ((N - B < 0)%Z ->
     storey_height b = Ok (H / inject_Z (N - B)) /\
     exists fhs chs : list Q,
       floor_heights b = Ok fhs /\ ceiling_heights b = Ok chs /\
       length fhs = Z.to_nat N /\ length chs = Z.to_nat N /\
       (0 < H ->
        forall (i : nat) (f c : Q),
          nth_error fhs i = Some f -> nth_error chs i = Some c -> c <= f)).
Proof.
  intros H N B. split.
  - intros Hd.
    destruct (heights_undefined b Hd) as [Hf Hc].
    destruct (surfaces_undefined b Hd) as (Hw & Hfl & Hce & Hr & Hs & Hst).
    repeat split; try assumption.
    apply storey_height_undefined; exact Hd.
  - intros Hd.
    assert (Hne : (num_stories b - num_below_ground_stories b <> 0)%Z)
      by (fold N B; lia).
    split; [apply storey_height_defined; exact Hne |].
    eexists. eexists.
    split; [apply floor_heights_defined; exact Hne |].
    split; [apply ceiling_heights_defined; exact Hne |].
    rewrite !length_map, !range_length.
    split; [reflexivity |]. split; [reflexivity |].
    intros HH i f c Hf Hc.
    assert (Hi : (i < Z.to_nat (num_stories b))%nat).
    { destruct (Nat.lt_ge_cases i (Z.to_nat (num_stories b))) as [Hlt | Hge];
        [exact Hlt | exfalso].
      rewrite (proj2 (nth_error_None _ _)) in Hf; [discriminate |].
      rewrite length_map, range_length. exact Hge. }
    rewrite nth_error_map_range in Hf, Hc by exact Hi.
    injection Hf as <-. injection Hc as <-.
    pose proof (Qdiv_pos_neg (height b) (N - B) HH Hd) as Hs.
    fold H N B in Hs |- *.
    set (s := H / inject_Z (N - B)) in *.
    rewrite inject_Z_plus. change (inject_Z 1) with 1.
    setoid_replace (lowest_floor_level b + s * (inject_Z (Z.of_nat i) + 1))
      with (lowest_floor_level b + s * inject_Z (Z.of_nat i) + s) by ring.
    apply Qlt_le_weak, Qplus_neg_lt. exact Hs.
Qed.

(** C3, as the code has it.  There is no configuration check.  A block
    with N - B <= 0 is constructed without error.  When N - B = 0 the
    division in [storey_height] raises [ZeroDivisionError], and so does
    every property derived from it ([floor_heights], [ceiling_heights],
    [walls], [floors], [ceilings], [roofs], [surfaces], [stories]): none
    returns geometry.  When N - B < 0 nothing is raised: [storey_height]
    returns H/(N-B), and for H > 0 no storey returned has its ceiling above
    its floor.  (The order is not strict: rounding can make a ceiling and
    its floor equal.) *)
Theorem C3_zero_division_is_the_only_error (nm : string) (c0 : point)
    (rest : list point) (H : Q) (N B : Z) (G : Q) :
  (N - B <= 0)%Z ->
  exists b : Block,
    Block_init nm (c0 :: rest) H N B G = Ok b /\
    ((N - B = 0)%Z ->
       storey_height b = Raise ZeroDivisionError /\
       floor_heights b = Raise ZeroDivisionError /\
       ceiling_heights b = Raise ZeroDivisionError /\
       walls b = Raise ZeroDivisionError /\
       floors b = Raise ZeroDivisionError /\
       ceilings b = Raise ZeroDivisionError /\
       roofs b = Raise ZeroDivisionError /\
       surfaces b = Raise ZeroDivisionError /\
       stories b = Raise ZeroDivisionError) /\
    ((N - B < 0)%Z ->
       storey_height b = Ok (H / inject_Z (N - B)) /\
       exists fhs chs : list Q,
         floor_heights b = Ok fhs /\ ceiling_heights b = Ok chs /\
         length fhs = Z.to_nat N /\ length chs = Z.to_nat N /\
         (0 < H ->
          forall (i : nat) (f c : Q),
            nth_error fhs i = Some f -> nth_error chs i = Some c -> c <= f)).
Proof.
  intros _.
  destruct (Block_init_accepts nm c0 rest H N B G)
    as (b & Hb & _ & HH & HN & HB & _).
  exists b. split; [exact Hb |].
  pose proof (no_configuration_check b) as P. cbv zeta in P.
  rewrite HH, HN, HB in P. exact P.
Qed.

Lemma C3_zero_division_is_the_only_error_witness :
  (1 - 1 <= 0)%Z /\
  exists b : Block,
    Block_init "block" square 9 1 1 (5 # 2) = Ok b /\
    storey_height b = Raise ZeroDivisionError /\
    floor_heights b = Raise ZeroDivisionError /\
    stories b = Raise ZeroDivisionError.
Proof.
  assert (Hle : (1 - 1 <= 0)%Z) by lia.
  split; [exact Hle |].
  destruct (C3_zero_division_is_the_only_error "block" (0, 0)
              [(10, 0); (10, 10); (0, 10)] 9 1 1 (5 # 2) Hle)
    as (b & Hb & Hzero & _).
  destruct (Hzero eq_refl) as (Hs & Hf & _ & _ & _ & _ & _ & _ & Hst).
  exists b. repeat split; assumption.
Defined.

(** C3 as stated fails when N - B < 0: with N = 1, B = 2 and H = 9 the
    block is constructed, no error is raised, and the one storey returned
    has its ceiling below its floor. *)
Lemma C3_negative_count_returns_geometry :
  let b := mkBlock "block" square 9 1 2 (5 # 2) in
  (num_stories b - num_below_ground_stories b <= 0)%Z /\
  Block_init "block" square 9 1 2 (5 # 2) = Ok b /\
  exists (sh : Q) (fhs chs : list Q),
    storey_height b = Ok sh /\ sh < 0 /\
    floor_heights b = Ok fhs /\ ceiling_heights b = Ok chs /\
    length fhs = 1%nat /\ Forall2 (fun f c => c < f) fhs chs.
Proof.
  intro b. split; [cbn; lia |]. split; [reflexivity |].
  eexists. eexists. eexists.
  split; [vm_compute; reflexivity |].
  split; [reflexivity |].
  split; [vm_compute; reflexivity |].
  split; [vm_compute; reflexivity |].
  split; [reflexivity |].
  constructor; [reflexivity | constructor].
Qed.

(** ** Edges of a polygon *)

Lemma nth_error_combine (A B : Type) (l : list A) (l' : list B) (i : nat)
    (a : A) (a' : B) :
  nth_error l i = Some a -> nth_error l' i = Some a' ->
  nth_error (combine l l') i = Some (a, a').
Proof.
  revert l' i. induction l as [| x l IH]; intros [| x' l'] [| i] Ha Ha';
    try discriminate.
  - cbn in *. congruence.
  - cbn in *. now apply IH.
Qed.

Lemma edges_length (p : Polygon3D) : length (edges p) = length p.
Proof.
  unfold edges. rewrite length_map, length_combine, length_app.
  destruct p as [| v p]; [reflexivity |]. cbn [tl firstn length]. lia.
Qed.

(** Edge [j] runs from vertex [j] to vertex [(j+1) mod n]. *)
Lemma nth_error_edges (p : Polygon3D) (j : nat) (v w : Vector3D) :
  nth_error p j = Some v ->
  nth_error p (S j mod length p) = Some w ->
  nth_error (edges p) j = Some (Seg v w).
Proof.
  intros Hv Hw. unfold edges.
  rewrite nth_error_map.
  rewrite (nth_error_combine _ _ p (tl p ++ firstn 1 p) j v w);
    [reflexivity | exact Hv |].
  destruct p as [| a t]; [destruct j; discriminate |].
  assert (Hj : (j < length (a :: t))%nat)
    by (apply nth_error_Some; rewrite Hv; discriminate).
  cbn [tl firstn length] in *.
  destruct (Nat.eq_dec j (length t)) as [-> | Hne].
  - rewrite Nat.Div0.mod_same in Hw. cbn in Hw.
    rewrite nth_error_app2 by lia. now rewrite Nat.sub_diag.
  - rewrite Nat.mod_small in Hw by lia.
    rewrite nth_error_app1 by lia. exact Hw.
Qed.

(** ** Walls *)

Lemma raised_coordinates (a : point) (z : Q) :
  vx (raised a z) == fst a /\ vy (raised a z) == snd a /\ vz (raised a z) == z.
Proof. unfold raised, vadd. cbn [vx vy vz]. repeat split; ring. Qed.

Lemma nth_error_footprint (b : Block) (j : nat) (a : point) :
  nth_error (coordinates b) j = Some a ->
  nth_error (footprint b) j = Some (V3 (fst a) (snd a) 0).
Proof.
  intros Ha. unfold footprint. now rewrite nth_error_map, Ha.
Qed.

Lemma footprint_length (b : Block) :
  length (footprint b) = length (coordinates b).
Proof. unfold footprint. apply length_map. Qed.

(** C4.  For every storey of a block whose storey height is defined,
    [walls] holds one wall per footprint edge, as many as the stored
    footprint has vertices, and the wall of the edge from vertex j to vertex
    (j+1) mod n is [p1 at c, p1 at f, p2 at f, p2 at c] with f and c the
    storey's floor and ceiling elevations. *)
Theorem C4_one_wall_per_edge (b : Block) :
  (num_stories b - num_below_ground_stories b <> 0)%Z ->
  exists (fhs chs : list Q) (ws : list (list Polygon3D)),
    floor_heights b = Ok fhs /\ ceiling_heights b = Ok chs /\
    walls b = Ok ws /\
    length ws = Z.to_nat (num_stories b) /\
    forall (i : nat) (f c : Q),
      nth_error fhs i = Some f -> nth_error chs i = Some c ->
      exists storey_walls : list Polygon3D,
        nth_error ws i = Some storey_walls /\
        storey_walls =
          map (fun edge => make_wall edge f c) (edges (footprint b)) /\
        length storey_walls = length (edges (footprint b)) /\
        length storey_walls = length (coordinates b) /\
        forall (j : nat) (a1 a2 : point),
          nth_error (coordinates b) j = Some a1 ->
          nth_error (coordinates b) (S j mod length (coordinates b))
            = Some a2 ->
          nth_error storey_walls j =
          Some [raised a1 c; raised a1 f; raised a2 f; raised a2 c].
Proof.
  intros Hd.
  destruct (walls_defined b Hd) as (fhs & chs & Hf & Hc & Hw).
  exists fhs, chs. eexists.
  split; [exact Hf |]. split; [exact Hc |]. split; [exact Hw |].
  split.
  { rewrite floor_heights_defined in Hf by exact Hd.
    rewrite ceiling_heights_defined in Hc by exact Hd.
    injection Hf as <-. injection Hc as <-.
    rewrite length_map, length_combine, !length_map, range_length. lia. }
  intros i f c Hif Hic. eexists.
  split.
  { rewrite nth_error_map, (nth_error_combine _ _ fhs chs i f c Hif Hic).
    reflexivity. }
  cbn [fst snd].
  split; [reflexivity |].
  split; [apply length_map |].
  split; [now rewrite length_map, edges_length, footprint_length |].
  intros j a1 a2 H1 H2.
  rewrite nth_error_map.
  rewrite (nth_error_edges (footprint b) j
             (V3 (fst a1) (snd a1) 0) (V3 (fst a2) (snd a2) 0)).
  - reflexivity.
  - now apply nth_error_footprint.
  - rewrite footprint_length. now apply nth_error_footprint.
Qed.

Lemma C4_one_wall_per_edge_witness :
  let b := mkBlock "block" square 9 3 0 (5 # 2) in
  exists ws : list (list Polygon3D),
    walls b = Ok ws /\ length ws = 3%nat /\
    exists storey_walls : list Polygon3D,
      nth_error ws 1 = Some storey_walls /\
      length storey_walls = 4%nat /\
      nth_error storey_walls 3 =
      Some [raised (0, 10) (lowest_floor_level b + 9 / inject_Z 3 * inject_Z 2);
            raised (0, 10) (lowest_floor_level b + 9 / inject_Z 3 * inject_Z 1);
            raised (0, 0) (lowest_floor_level b + 9 / inject_Z 3 * inject_Z 1);
            raised (0, 0) (lowest_floor_level b + 9 / inject_Z 3 * inject_Z 2)].
Proof.
  intro b.
  assert (Hd : (num_stories b - num_below_ground_stories b <> 0)%Z)
    by (cbn; lia).
  destruct (C4_one_wall_per_edge b Hd)
    as (fhs & chs & ws & Hf & Hc & Hw & Hlen & Hst).
  exists ws. split; [exact Hw |]. split; [exact Hlen |].
  injection Hf as <-. injection Hc as <-.
  destruct (Hst 1%nat _ _ eq_refl eq_refl)
    as (sw & Hsw & _ & _ & Hn & Hj).
  exists sw. split; [exact Hsw |]. split; [exact Hn |].
  exact (Hj 3%nat (0, 10) (0, 0) eq_refl eq_refl).
Defined.

(** ** Floors, ceilings and roofs *)

Lemma nth_error_snoc_lt (A B : Type) (f : A -> B) (l : list A) (x : B)
    (i : nat) :
  (S i < length l)%nat ->
  nth_error (map f (removelast l) ++ [x]) i = option_map f (nth_error l i).
Proof.
  intros Hi.
  rewrite nth_error_app1 by (rewrite length_map, removelast_length; lia).
  now rewrite nth_error_map, nth_error_removelast.
Qed.

Lemma nth_error_snoc_last (A B : Type) (f : A -> B) (l : list A) (x : B) :
  nth_error (map f (removelast l) ++ [x]) (pred (length l)) = Some x.
Proof.
  rewrite nth_error_app2 by (rewrite length_map, removelast_length; lia).
  rewrite length_map, removelast_length, Nat.sub_diag. reflexivity.
Qed.

Lemma snoc_length (A B : Type) (f : A -> B) (l : list A) (x : B) :
  length (map f (removelast l) ++ [x]) = S (pred (length l)).
Proof.
  rewrite length_app, length_map, removelast_length. cbn. lia.
Qed.

Lemma translate_footprint (b : Block) (z : Q) :
  translate (footprint b) (V3 0 0 z)
  = map (fun a => raised a z) (coordinates b).
Proof. unfold translate, footprint. now rewrite map_map. Qed.

Lemma translate_inverted_footprint (b : Block) (z : Q) :
  translate (invert_orientation (footprint b)) (V3 0 0 z)
  = map (fun a => raised a z) (rev (coordinates b)).
Proof.
  unfold translate, invert_orientation, footprint.
  now rewrite <- map_rev, map_map.
Qed.

(** C5.  The floor polygon of every storey is the stored footprint in
    reversed vertex order raised to the storey's floor elevation; every
    ceiling polygon is the footprint in its stored order raised to the
    storey's ceiling elevation, and the roof polygon is the footprint in its
    stored order raised to the total height. *)
Theorem C5_floor_inverted_ceiling_and_roof_original (b : Block) :
  (num_stories b - num_below_ground_stories b <> 0)%Z ->
  exists (fhs chs : list Q) (fs cs rs : list group),
    floor_heights b = Ok fhs /\ ceiling_heights b = Ok chs /\
    floors b = Ok fs /\ ceilings b = Ok cs /\ roofs b = Ok rs /\
    length fs = Z.to_nat (num_stories b) /\
    (forall (i : nat) (f : Q),
       nth_error fhs i = Some f ->
       nth_error fs i =
       Some (GList [Some (map (fun a => raised a f)
                              (rev (coordinates b)))])) /\
    (forall (i : nat) (c : Q),
       (S i < length chs)%nat -> nth_error chs i = Some c ->
       nth_error cs i =
       Some (GList [Some (map (fun a => raised a c) (coordinates b))])) /\
    nth_error rs (pred (length chs)) =
    Some (GList [Some (map (fun a => raised a (height b))
                           (coordinates b))]).
Proof.
  intros Hd.
  destruct (floors_defined b Hd) as (fhs & Hf & Hfs).
  destruct (ceilings_defined b Hd) as (chs & Hc & Hcs).
  destruct (roofs_defined b Hd) as (chs' & Hc' & Hrs).
  assert (chs' = chs) by congruence. subst chs'.
  exists fhs, chs. eexists. eexists. eexists.
  split; [exact Hf |]. split; [exact Hc |].
  split; [exact Hfs |]. split; [exact Hcs |]. split; [exact Hrs |].
  split.
  { rewrite floor_heights_defined in Hf by exact Hd. injection Hf as <-.
    now rewrite !length_map, range_length. }
  split.
  { intros i f Hi.
    now rewrite nth_error_map, Hi, <- translate_inverted_footprint. }
  split.
  { intros i c Hlt Hi.
    now rewrite nth_error_snoc_lt, Hi, <- translate_footprint. }
  now rewrite nth_error_snoc_last, <- translate_footprint.
Qed.

Lemma C5_floor_inverted_ceiling_and_roof_original_witness :
  let b := mkBlock "block" square 9 3 0 (5 # 2) in
  exists (fs cs rs : list group) (f c : Q),
    floors b = Ok fs /\ ceilings b = Ok cs /\ roofs b = Ok rs /\
    f == 3 /\ c == 6 /\
    nth_error fs 1 =
    Some (GList [Some [raised (0, 10) f; raised (10, 10) f;
                       raised (10, 0) f; raised (0, 0) f]]) /\
    nth_error cs 1 =
    Some (GList [Some [raised (0, 0) c; raised (10, 0) c;
                       raised (10, 10) c; raised (0, 10) c]]) /\
    nth_error rs 2 =
    Some (GList [Some [raised (0, 0) 9; raised (10, 0) 9;
                       raised (10, 10) 9; raised (0, 10) 9]]).
Proof.
  intro b.
  assert (Hd : (num_stories b - num_below_ground_stories b <> 0)%Z)
    by (cbn; lia).
  destruct (C5_floor_inverted_ceiling_and_roof_original b Hd)
    as (fhs & chs & fs & cs & rs & Hf & Hc & Hfs & Hcs & Hrs & _
        & Hfl & Hce & Hro).
  injection Hf as <-. injection Hc as <-.
  exists fs, cs, rs. eexists. eexists.
  split; [exact Hfs |]. split; [exact Hcs |]. split; [exact Hrs |].
  split; [| split; [| split; [exact (Hfl 1%nat _ eq_refl) |
    split; [apply (Hce 1%nat _); [cbn; lia | reflexivity] | exact Hro]]]];
    reflexivity.
Defined.

Lemma ceiling_heights_length (b : Block) (chs : list Q) :
  ceiling_heights b = Ok chs -> length chs = Z.to_nat (num_stories b).
Proof.
  unfold ceiling_heights, storey_height.
  destruct (num_stories b - num_below_ground_stories b =? 0)%Z;
    [discriminate |].
  cbn. intros E. injection E as <-. now rewrite length_map, range_length.
Qed.

(** C6.  For a block with N >= 1 storeys and a defined storey height,
    [ceilings] and [roofs] have N entries each; the topmost storey N-1 has
    the roof polygon and the ceiling placeholder, and every other storey has
    the footprint at its ceiling elevation as ceiling and a roof
    placeholder. *)
Theorem C6_roof_only_on_topmost_storey (b : Block) :
  let N := num_stories b in
  (1 <= N)%Z -> (N - num_below_ground_stories b <> 0)%Z ->
  exists (chs : list Q) (cs rs : list group),
    ceiling_heights b = Ok chs /\ ceilings b = Ok cs /\ roofs b = Ok rs /\
    Z.of_nat (length cs) = N /\ Z.of_nat (length rs) = N /\
    forall i : nat, (Z.of_nat i < N)%Z ->
      exists (ceiling roof : group),
        nth_error cs i = Some ceiling /\ nth_error rs i = Some roof /\
        if (Z.of_nat i =? N - 1)%Z
        then
          roof = GList [Some (translate (footprint b) (V3 0 0 (height b)))] /\
          polygons_of roof <> [] /\
          ceiling = GStr EmptyString /\ polygons_of ceiling = []
        else
          (exists c : Q,
              nth_error chs i = Some c /\
              ceiling = GList [Some (translate (footprint b) (V3 0 0 c))]) /\
          polygons_of ceiling <> [] /\
          roof = GList [None] /\ polygons_of roof = [].
Proof.
  intros N HN Hd.
  destruct (ceilings_defined b Hd) as (chs & Hc & Hcs).
  destruct (roofs_defined b Hd) as (chs' & Hc' & Hrs).
  assert (chs' = chs) by congruence. subst chs'.
  pose proof (ceiling_heights_length b chs Hc) as Hlen. fold N in Hlen.
  exists chs. eexists. eexists.
  split; [exact Hc |]. split; [exact Hcs |]. split; [exact Hrs |].
  rewrite !snoc_length.
  split; [lia |]. split; [lia |].
  intros i Hi.
  destruct (Z.eqb_spec (Z.of_nat i) (N - 1)) as [Htop | Hlow].
  - assert (Ei : i = pred (length chs)) by lia. subst i.
    eexists. eexists.
    split; [apply nth_error_snoc_last |].
    split; [apply nth_error_snoc_last |].
    repeat split; discriminate.
  - assert (Hlt : (S i < length chs)%nat) by lia.
    destruct (nth_error chs i) as [c |] eqn:Hci.
    2: { apply nth_error_None in Hci. lia. }
    eexists. eexists.
    split; [rewrite nth_error_snoc_lt, Hci by exact Hlt; reflexivity |].
    split; [rewrite nth_error_snoc_lt, Hci by exact Hlt; reflexivity |].
    split; [exists c; split; reflexivity |].
    repeat split; discriminate.
Qed.

Lemma C6_roof_only_on_topmost_storey_witness :
  let b := mkBlock "block" square 9 3 1 (5 # 2) in
  exists (cs rs : list group),
    ceilings b = Ok cs /\ roofs b = Ok rs /\
    length cs = 3%nat /\ length rs = 3%nat /\
    nth_error cs 2 = Some (GStr EmptyString) /\
    nth_error rs 2 =
      Some (GList [Some (translate (footprint b) (V3 0 0 9))]) /\
    nth_error rs 0 = Some (GList [None]) /\
    nth_error rs 1 = Some (GList [None]).
Proof.
  intro b.
  assert (HN : (1 <= num_stories b)%Z) by (cbn; lia).
  assert (Hd : (num_stories b - num_below_ground_stories b <> 0)%Z)
    by (cbn; lia).
  destruct (C6_roof_only_on_topmost_storey b HN Hd)
    as (chs & cs & rs & Hc & Hcs & Hrs & Hlc & Hlr & Hall).
  exists cs, rs.
  split; [exact Hcs |]. split; [exact Hrs |].
  split; [cbn in Hlc; lia |]. split; [cbn in Hlr; lia |].
  destruct (Hall 2%nat) as (c2 & r2 & Hc2 & Hr2 & Hr2' & _ & Hc2' & _);
    [cbn; lia |].
  destruct (Hall 0%nat) as (c0 & r0 & _ & Hr0 & _ & _ & Hr0' & _);
    [cbn; lia |].
  destruct (Hall 1%nat) as (c1 & r1 & _ & Hr1 & _ & _ & Hr1' & _);
    [cbn; lia |].
  subst. repeat split; assumption.
Defined.

Lemma walls_length (b : Block) :
  (num_stories b - num_below_ground_stories b <> 0)%Z ->
  exists ws : list (list Polygon3D),
    walls b = Ok ws /\ length ws = Z.to_nat (num_stories b).
Proof.
  intros Hd. destruct (walls_defined b Hd) as (fhs & chs & Hf & Hc & Hw).
  eexists. split; [exact Hw |].
  rewrite floor_heights_defined in Hf by exact Hd.
  rewrite ceiling_heights_defined in Hc by exact Hd.
  injection Hf as <-. injection Hc as <-.
  rewrite length_map, length_combine, !length_map, range_length. lia.
Qed.

(** ** Storeys *)

Lemma nth_error_zip_stories (fs cs : list group) (ws : list (list Polygon3D))
    (rs : list group) (n : Z) (i : nat) (f c : group) (w : list Polygon3D)
    (r : group) :
  nth_error fs i = Some f -> nth_error cs i = Some c ->
  nth_error ws i = Some w -> nth_error rs i = Some r ->
  nth_error (zip_stories n fs cs ws rs) i
  = Some (mkStorey (n + Z.of_nat i) f c w r).
Proof.
  revert cs ws rs n i.
  induction fs as [| f0 fs IH]; intros [| c0 cs] [| w0 ws] [| r0 rs] n [| i];
    try discriminate; cbn [nth_error zip_stories]; intros Hf Hc Hw Hr.
  - rewrite Z.add_0_r. congruence.
  - rewrite (IH cs ws rs (n + 1)%Z i Hf Hc Hw Hr).
    do 2 f_equal. lia.
Qed.

Lemma In_zip_stories (fs cs : list group) (ws : list (list Polygon3D))
    (rs : list group) (n : Z) (st : Storey) :
  In st (zip_stories n fs cs ws rs) ->
  exists i : nat,
    nth_error fs i = Some (st_floors st) /\
    nth_error cs i = Some (st_ceilings st) /\
    nth_error ws i = Some (st_walls st) /\
    nth_error rs i = Some (st_roofs st) /\
    storey_no st = (n + Z.of_nat i)%Z.
Proof.
  revert cs ws rs n.
  induction fs as [| f0 fs IH]; intros [| c0 cs] [| w0 ws] [| r0 rs] n;
    cbn [zip_stories In]; try contradiction.
  intros [<- | Hin].
  - exists 0%nat. cbn. repeat split; try reflexivity. lia.
  - destruct (IH cs ws rs (n + 1)%Z Hin) as (i & Hf & Hc & Hw & Hr & Hn).
    exists (S i). cbn [nth_error]. repeat split; try assumption. lia.
Qed.

Lemma stories_defined (b : Block) :
  (num_stories b - num_below_ground_stories b <> 0)%Z ->
  exists (fs cs : list group) (ws : list (list Polygon3D)) (rs : list group),
    floors b = Ok fs /\ ceilings b = Ok cs /\ walls b = Ok ws /\
    roofs b = Ok rs /\
    stories b = Ok (zip_stories (- num_below_ground_stories b) fs cs ws rs).
Proof.
  intros Hd.
  destruct (floors_defined b Hd) as (fhs & _ & Hfs).
  destruct (ceilings_defined b Hd) as (chs & _ & Hcs).
  destruct (walls_defined b Hd) as (fhs' & chs' & _ & _ & Hws).
  destruct (roofs_defined b Hd) as (chs'' & _ & Hrs).
  eexists. eexists. eexists. eexists.
  split; [exact Hfs |]. split; [exact Hcs |]. split; [exact Hws |].
  split; [exact Hrs |].
  unfold stories. rewrite Hfs, Hcs, Hws, Hrs. cbn [bind].
  destruct (Z.eqb_spec (num_below_ground_stories b) 0) as [E | _];
    cbn [negb]; [rewrite E |]; reflexivity.
Qed.

(** [Zone.__init__] copies the name, floors, roofs and ceilings. *)
Lemma Zone_init_passthrough (nm : string) (s : SurfaceDict) :
  zone_name (Zone_init nm s) = nm /\
  zone_floors (Zone_init nm s) = sd_floors s /\
  zone_roofs (Zone_init nm s) = sd_roofs s /\
  zone_ceilings (Zone_init nm s) = sd_ceilings s.
Proof. repeat split. Qed.

(** C10.  The two placeholders are different values.  For a block with
    N >= 1 storeys and a defined storey height, the last entry of
    [ceilings] is the empty string and each of the N-1 earlier [roofs]
    entries is the list [[None]].  A zone passes both through, so the zone
    of the topmost storey has the empty string as ceilings, and [[None]]
    is never a ceilings value. *)
Theorem C10_placeholders_are_untyped (b : Block) :
  let N := num_stories b in
  (1 <= N)%Z -> (N - num_below_ground_stories b <> 0)%Z ->
  exists (cs rs : list group) (sts : list Storey) (top : Storey),
    ceilings b = Ok cs /\ roofs b = Ok rs /\ stories b = Ok sts /\
    Z.of_nat (length cs) = N /\ Z.of_nat (length rs) = N /\
    nth_error cs (Z.to_nat (N - 1)) = Some (GStr EmptyString) /\
    (forall i : nat, (Z.of_nat i < N - 1)%Z ->
       nth_error rs i = Some (GList [None])) /\
    (forall c : group, In c cs -> c <> GList [None]) /\
    nth_error sts (Z.to_nat (N - 1)) = Some top /\
    (forall nm : string,
       zone_ceilings (Zone_init nm (storey_surfaces top)) = GStr EmptyString) /\
    (forall (nm : string) (st : Storey), In st sts ->
       zone_ceilings (Zone_init nm (storey_surfaces st)) = st_ceilings st /\
       zone_roofs (Zone_init nm (storey_surfaces st)) = st_roofs st /\
       zone_ceilings (Zone_init nm (storey_surfaces st)) <> GList [None]).
Proof.
  intros N HN Hd.
  destruct (stories_defined b Hd) as (fs & cs & ws & rs & Hfs & Hcs & Hws
                                      & Hrs & Hsts).
  destruct (walls_length b Hd) as (ws' & Hws' & Hwl).
  assert (ws' = ws) by congruence. subst ws'.
  destruct (floors_defined b Hd) as (fhs & Hfh & Hfs').
  destruct (ceilings_defined b Hd) as (chs & Hc & Hcs').
  destruct (roofs_defined b Hd) as (chs' & Hc' & Hrs').
  assert (chs' = chs) by congruence. subst chs'.
  pose proof (ceiling_heights_length b chs Hc) as Hlen. fold N in Hlen.
  assert (Hflen : length fs = Z.to_nat N).
  { rewrite floor_heights_defined in Hfh by exact Hd. injection Hfh as <-.
    rewrite Hfs' in Hfs. injection Hfs as <-.
    now rewrite !length_map, range_length. }
  rewrite Hcs' in Hcs. injection Hcs as <-.
  rewrite Hrs' in Hrs. injection Hrs as <-.
  set (cs := map _ (removelast chs) ++ [GStr EmptyString]) in *.
  set (rs := map _ (removelast chs) ++ [GList [Some _]]) in *.
  assert (Htop : Z.to_nat (N - 1) = pred (length chs)) by lia.
  assert (Hctop : nth_error cs (Z.to_nat (N - 1)) = Some (GStr EmptyString))
    by (rewrite Htop; apply nth_error_snoc_last).
  assert (Hnone : forall c : group, In c cs -> c <> GList [None]).
  { intros c Hin. apply in_app_or in Hin. destruct Hin as [Hin | [<- | []]].
    - apply in_map_iff in Hin. destruct Hin as (ch & <- & _). discriminate.
    - discriminate. }
  destruct (nth_error fs (Z.to_nat (N - 1))) as [f |] eqn:Hf.
  2: { apply nth_error_None in Hf. lia. }
  destruct (nth_error ws (Z.to_nat (N - 1))) as [w |] eqn:Hw.
  2: { apply nth_error_None in Hw. lia. }
  destruct (nth_error rs (Z.to_nat (N - 1))) as [r |] eqn:Hr.
  2: { apply nth_error_None in Hr. unfold rs in Hr.
       rewrite snoc_length in Hr. lia. }
  exists cs, rs. eexists. eexists.
  split; [exact Hcs' |]. split; [exact Hrs' |]. split; [exact Hsts |].
  unfold cs at 1, rs at 1. rewrite !snoc_length.
  split; [lia |]. split; [lia |].
  split; [exact Hctop |].
  split.
  { intros i Hi. unfold rs. rewrite nth_error_snoc_lt by lia.
    destruct (nth_error chs i) eqn:Hci; [reflexivity |].
    apply nth_error_None in Hci. lia. }
  split; [exact Hnone |].
  split; [exact (nth_error_zip_stories fs cs ws rs _ _ f _ w r Hf Hctop Hw Hr) |].
  split; [reflexivity |].
  intros nm st Hin. split; [reflexivity |]. split; [reflexivity |].
  cbn. apply In_zip_stories in Hin.
  destruct Hin as (i & _ & Hci & _). apply Hnone.
  eapply nth_error_In. exact Hci.
Qed.

Lemma C10_placeholders_are_untyped_witness :
  let b := mkBlock "block" square 9 3 1 (5 # 2) in
  exists (cs rs : list group) (sts : list Storey) (top : Storey),
    ceilings b = Ok cs /\ roofs b = Ok rs /\ stories b = Ok sts /\
    nth_error cs 2 = Some (GStr EmptyString) /\
    nth_error rs 0 = Some (GList [None]) /\
    nth_error rs 1 = Some (GList [None]) /\
    nth_error sts 2 = Some top /\
    zone_ceilings (Zone_init "zone" (storey_surfaces top)) = GStr EmptyString.
Proof.
  intro b.
  assert (HN : (1 <= num_stories b)%Z) by (cbn; lia).
  assert (Hd : (num_stories b - num_below_ground_stories b <> 0)%Z)
    by (cbn; lia).
  destruct (C10_placeholders_are_untyped b HN Hd)
    as (cs & rs & sts & top & Hcs & Hrs & Hsts & _ & _ & Hlast & Hnone & _
        & Htop & Hzone & _).
  exists cs, rs, sts, top.
  split; [exact Hcs |]. split; [exact Hrs |]. split; [exact Hsts |].
  split; [exact Hlast |].
  split; [apply (Hnone 0%nat); cbn; lia |].
  split; [apply (Hnone 1%nat); cbn; lia |].
  split; [exact Htop | apply Hzone].
Defined.

Lemma zip_stories_length (fs cs : list group) (ws : list (list Polygon3D))
    (rs : list group) (n : Z) (k : nat) :
  length fs = k -> (k <= length cs)%nat -> length ws = k ->
  (k <= length rs)%nat ->
  length (zip_stories n fs cs ws rs) = k.
Proof.
  revert cs ws rs n k.
  induction fs as [| f fs IH]; intros [| c cs] [| w ws] [| r rs] n k;
    cbn [length zip_stories]; try lia.
  intros <- Hc Hw Hr. f_equal. apply IH; lia.
Qed.

Lemma groups_length (b : Block) :
  (num_stories b - num_below_ground_stories b <> 0)%Z ->
  exists fs cs rs : list group,
    floors b = Ok fs /\ ceilings b = Ok cs /\ roofs b = Ok rs /\
    length fs = Z.to_nat (num_stories b) /\
    length cs = S (pred (Z.to_nat (num_stories b))) /\
    length rs = S (pred (Z.to_nat (num_stories b))).
Proof.
  intros Hd.
  destruct (floors_defined b Hd) as (fhs & Hf & Hfs).
  destruct (ceilings_defined b Hd) as (chs & Hc & Hcs).
  destruct (roofs_defined b Hd) as (chs' & Hc' & Hrs).
  assert (chs' = chs) by congruence. subst chs'.
  eexists. eexists. eexists.
  split; [exact Hfs |]. split; [exact Hcs |]. split; [exact Hrs |].
  rewrite !snoc_length, (ceiling_heights_length b chs Hc).
  rewrite floor_heights_defined in Hf by exact Hd. injection Hf as <-.
  rewrite !length_map, range_length. repeat split.
Qed.

(** ** Wall areas and the zone filter *)

Lemma area_gt_0_spec (p : Polygon3D) : area_gt_0 p = true <-> 0 < area_sq p.
Proof.
  unfold area_gt_0. destruct (Qlt_le_dec 0 (area_sq p)) as [Hlt | Hle].
  - tauto.
  - split; [discriminate |]. intros Hlt. exfalso.
    exact (Qlt_not_le _ _ Hlt Hle).
Qed.

(** A wall is a parallelogram with a vertical side of length [|ch - fh|]. *)
Lemma area_sq_make_wall (e : Segment) (fh ch : Q) :
  area_sq (make_wall e fh ch) ==
  (ch - fh) * (ch - fh) *
  ((vx (p2 e) - vx (p1 e)) * (vx (p2 e) - vx (p1 e))
   + (vy (p2 e) - vy (p1 e)) * (vy (p2 e) - vy (p1 e))).
Proof.
  destruct e as [[x1 y1 z1] [x2 y2 z2]].
  unfold area_sq, newell, make_wall, edges, norm_sq.
  cbn [tl firstn app combine map fold_right fst snd p1 p2].
  unfold cross, vadd, vzero. cbn [vx vy vz].
  field.
Qed.

Lemma square_factor_pos (x y : Q) : 0 < x * x * y <-> ~ x == 0 /\ 0 < y.
Proof.
  split.
  - intros H. split.
    + intro E. rewrite E in H. lra.
    + nra.
  - intros [Hx Hy]. assert (0 < x * x) by nra. nra.
Qed.

Lemma sum_of_squares_pos (x y : Q) :
  0 < x * x + y * y <-> ~ (x == 0 /\ y == 0).
Proof.
  split.
  - intros H [Ex Ey]. rewrite Ex, Ey in H. lra.
  - intros Hn. destruct (Qeq_dec x 0) as [Ex | Ex].
    + destruct (Qeq_dec y 0) as [Ey | Ey]; [tauto |].
      assert (0 < y * y) by nra. nra.
    + assert (0 < x * x) by nra. nra.
Qed.

(** On a level edge the wall has an area exactly when the storey has a
    height and the edge a length. *)
Lemma area_gt_0_make_wall (e : Segment) (fh ch : Q) :
  ~ ch - fh == 0 -> vz (p1 e) == vz (p2 e) ->
  area_gt_0 (make_wall e fh ch) = negb (zero_length e).
Proof.
  intros Hh Hz. unfold zero_length.
  rewrite (proj2 (Qeq_bool_iff (vz (p1 e)) (vz (p2 e))) Hz), andb_true_r.
  destruct (area_gt_0 (make_wall e fh ch)) eqn:Ha.
  - apply area_gt_0_spec in Ha. rewrite area_sq_make_wall in Ha.
    apply square_factor_pos in Ha. destruct Ha as [_ Ha].
    apply sum_of_squares_pos in Ha.
    symmetry. apply negb_true_iff, andb_false_iff.
    destruct (Qeq_bool (vx (p1 e)) (vx (p2 e))) eqn:Ex; [| now left].
    destruct (Qeq_bool (vy (p1 e)) (vy (p2 e))) eqn:Ey; [| now right].
    exfalso. apply Ha. apply Qeq_bool_iff in Ex, Ey. split; lra.
  - symmetry. apply negb_false_iff, andb_true_iff.
    assert (Hn : ~ 0 < area_sq (make_wall e fh ch)).
    { intros Hp. apply area_gt_0_spec in Hp. congruence. }
    rewrite area_sq_make_wall in Hn.
    split; apply Qeq_bool_iff.
    + destruct (Qeq_dec (vx (p1 e)) (vx (p2 e))) as [E | E]; [exact E |].
      exfalso. apply Hn. apply square_factor_pos. split; [exact Hh |].
      apply sum_of_squares_pos. intros [Ex _]. apply E. lra.
    + destruct (Qeq_dec (vy (p1 e)) (vy (p2 e))) as [E | E]; [exact E |].
      exfalso. apply Hn. apply square_factor_pos. split; [exact Hh |].
      apply sum_of_squares_pos. intros [_ Ey]. apply E. lra.
Qed.

Lemma filter_walls_length (es : list Segment) (fh ch : Q) :
  ~ ch - fh == 0 ->
  (forall e, In e es -> vz (p1 e) == vz (p2 e)) ->
  length (filter area_gt_0 (map (fun e => make_wall e fh ch) es))
  = length (filter (fun e => negb (zero_length e)) es).
Proof.
  intros Hh. induction es as [| e es IH]; intros Hz; [reflexivity |].
  cbn [map filter].
  rewrite (area_gt_0_make_wall e fh ch Hh (Hz e (or_introl eq_refl))).
  assert (IH' := IH (fun e' Hin => Hz e' (or_intror Hin))).
  destruct (negb (zero_length e)); cbn [length]; now rewrite IH'.
Qed.

Lemma footprint_edges_level (b : Block) (e : Segment) :
  In e (edges (footprint b)) -> vz (p1 e) == vz (p2 e).
Proof.
  assert (Hv : forall v, In v (footprint b) -> vz v = 0).
  { intros v Hin. unfold footprint in Hin. apply in_map_iff in Hin.
    destruct Hin as (a & <- & _). reflexivity. }
  unfold edges. intros Hin. apply in_map_iff in Hin.
  destruct Hin as ([v w] & <- & Hin). cbn [p1 p2 fst snd].
  pose proof (in_combine_l _ _ _ _ Hin) as Hl.
  pose proof (in_combine_r _ _ _ _ Hin) as Hr.
  rewrite (Hv v Hl).
  apply in_app_or in Hr. destruct Hr as [Hr | Hr].
  - rewrite (Hv w); [reflexivity |].
    destruct (footprint b); [contradiction | now right].
  - rewrite (Hv w); [reflexivity |].
    destruct (footprint b); [contradiction |].
    destruct Hr as [<- | []]. now left.
Qed.

Lemma nth_error_combine_inv (A B : Type) (l : list A) (l' : list B) (i : nat)
    (a : A) (a' : B) :
  nth_error (combine l l') i = Some (a, a') ->
  nth_error l i = Some a /\ nth_error l' i = Some a'.
Proof.
  revert l' i. induction l as [| x l IH]; intros [| x' l'] [| i] H;
    try discriminate.
  - cbn in *. split; congruence.
  - cbn in *. now apply IH.
Qed.

(** A wall between equal floor and ceiling elevations has no area. *)
Lemma area_gt_0_flat_wall (e : Segment) (fh ch : Q) :
  ch - fh == 0 -> area_gt_0 (make_wall e fh ch) = false.
Proof.
  intros Hz. destruct (area_gt_0 (make_wall e fh ch)) eqn:Ha; [| reflexivity].
  apply area_gt_0_spec in Ha. rewrite area_sq_make_wall in Ha.
  apply square_factor_pos in Ha. tauto.
Qed.

Lemma filter_flat_walls (es : list Segment) (fh ch : Q) :
  ch - fh == 0 ->
  filter area_gt_0 (map (fun e => make_wall e fh ch) es) = [].
Proof.
  intros Hflat. induction es as [| e es IH]; [reflexivity |].
  cbn [map filter]. now rewrite (area_gt_0_flat_wall e fh ch Hflat).
Qed.




(** ** Construction and the closing point *)

(** C8, as the code has it.  For an outline whose last point differs from
    its first, constructing a block from the outline followed by a closing
    point equal to the first point gives the same block, hence the same
    stored coordinates, footprint, stories and surfaces, as constructing it
    from the outline alone. *)
Theorem C8_closing_point_is_dropped (nm : string) (c : point)
    (rest : list point) (closing : point) (H : Q) (N B : Z) (G : Q) :
  point_eqb c closing = true ->
  point_eqb c (last (c :: rest) c) = false ->
  exists b : Block,
    Block_init nm ((c :: rest) ++ [closing]) H N B G = Ok b /\
    Block_init nm (c :: rest) H N B G = Ok b /\
    coordinates b = c :: rest /\
    forall b1 b2 : Block,
      Block_init nm ((c :: rest) ++ [closing]) H N B G = Ok b1 ->
      Block_init nm (c :: rest) H N B G = Ok b2 ->
      coordinates b1 = coordinates b2 /\ footprint b1 = footprint b2 /\
      stories b1 = stories b2 /\ surfaces b1 = surfaces b2.
Proof.
  intros Hclosed Hopen.
  assert (E1 : Block_init nm ((c :: rest) ++ [closing]) H N B G
               = Ok (mkBlock nm (c :: rest) H N B G)).
  { change (Block_init nm ((c :: rest) ++ [closing]) H N B G)
      with (Ok (mkBlock nm
                  (if point_eqb c (last ((c :: rest) ++ [closing]) c)
                   then removelast ((c :: rest) ++ [closing])
                   else (c :: rest) ++ [closing])
                  H N B G)).
    now rewrite last_last, Hclosed, removelast_last. }
  assert (E2 : Block_init nm (c :: rest) H N B G
               = Ok (mkBlock nm (c :: rest) H N B G)).
  { unfold Block_init. now rewrite Hopen. }
  exists (mkBlock nm (c :: rest) H N B G).
  split; [exact E1 |]. split; [exact E2 |]. split; [reflexivity |].
  intros b1 b2 H1 H2.
  assert (b1 = b2) by congruence. subst b2. repeat split.
Qed.

Lemma C8_closing_point_is_dropped_witness :
  exists b : Block,
    Block_init "block" [(0, 0); (10, 0); (10, 10); (0, 10); (0, 0)]
               9 3 0 (5 # 2) = Ok b /\
    Block_init "block" square 9 3 0 (5 # 2) = Ok b /\
    coordinates b = square.
Proof.
  destruct (C8_closing_point_is_dropped "block" (0, 0)
              [(10, 0); (10, 10); (0, 10)] (0, 0) 9 3 0 (5 # 2)
              eq_refl eq_refl)
    as (b & H1 & H2 & Hc & _).
  exists b. split; [exact H1 |]. split; [exact H2 | exact Hc].
Defined.

(** C8 as stated fails on an outline that is closed twice: its first and
    last points are equal, but only one closing point is popped, while the
    same list without its last point is closed again and loses one more. *)
Lemma C8_doubly_closed_outline :
  let l : list point := [(0, 0); (10, 0); (10, 10); (0, 0); (0, 0)] in
  point_eqb (hd (0, 0) l) (last l (0, 0)) = true /\
  exists b1 b2 : Block,
    Block_init "block" l 9 1 0 (5 # 2) = Ok b1 /\
    Block_init "block" (removelast l) 9 1 0 (5 # 2) = Ok b2 /\
    coordinates b1 = [(0, 0); (10, 0); (10, 10); (0, 0)] /\
    coordinates b2 = [(0, 0); (10, 0); (10, 10)] /\
    coordinates b1 <> coordinates b2 /\
    footprint b1 <> footprint b2.
Proof.
  intro l. split; [reflexivity |].
  eexists. eexists.
  split; [reflexivity |]. split; [reflexivity |].
  split; [reflexivity |]. split; [reflexivity |].
  split; intro E; discriminate E.
Qed.

(** C9, as the code has it.  Construction counts no points: the empty list
    fails with [IndexError] at [coordinates[0]], and every other list is
    accepted and stored after the closing point, if any, is popped. *)
Theorem C9_construction_counts_no_points (nm : string) (H : Q) (N B : Z)
    (G : Q) :
  Block_init nm [] H N B G = Raise IndexError /\
  forall (c : point) (rest : list point),
    exists b : Block,
      Block_init nm (c :: rest) H N B G = Ok b /\
      coordinates b =
      (if point_eqb c (last (c :: rest) c)
       then removelast (c :: rest) else c :: rest) /\
      (length (coordinates b) <= length (c :: rest))%nat.
Proof.
  split; [reflexivity |].
  intros c rest.
  destruct (Block_init_accepts nm c rest H N B G)
    as (b & Hb & _ & _ & _ & _ & _ & Hc).
  exists b. split; [exact Hb |]. split; [exact Hc |].
  rewrite Hc. destruct (point_eqb c (last (c :: rest) c)); [| lia].
  rewrite removelast_length. lia.
Qed.

(** C9 as stated fails: a footprint of two distinct points is accepted. *)
Lemma C9_two_point_footprint_accepted :
  exists b : Block,
    Block_init_default "block" [(0, 0); (1, 1)] 3 = Ok b /\
    coordinates b = [(0, 0); (1, 1)] /\
    (length (distinct_points (coordinates b)) < 3)%nat.
Proof.
  eexists. split; [reflexivity |]. split; [reflexivity |]. cbn. lia.
Qed.

(** * Further properties of the builder *)

(** ** Storeys stack without gaps *)

(** X3.  The ceiling elevation of a storey is the floor elevation of the
    storey above it: both are computed as [lfl + sh * (i+1)]. *)
Theorem ceiling_is_next_floor (b : Block) (fhs chs : list Q) (i : nat)
    (c : Q) :
  floor_heights b = Ok fhs -> ceiling_heights b = Ok chs ->
  (S i < length fhs)%nat ->
  nth_error chs i = Some c ->
  nth_error fhs (S i) = Some c.
Proof.
  intros Hf Hc Hlt Hic.
  destruct (Z.eq_dec (num_stories b - num_below_ground_stories b) 0)
    as [Hz | Hd].
  { destruct (heights_undefined b Hz) as [E _]. congruence. }
  rewrite floor_heights_defined in Hf by exact Hd.
  rewrite ceiling_heights_defined in Hc by exact Hd.
  injection Hf as <-. injection Hc as <-.
  rewrite length_map, range_length in Hlt.
  rewrite nth_error_map_range in Hic by lia.
  rewrite nth_error_map_range by exact Hlt.
  rewrite <- Hic. now rewrite Nat2Z.inj_succ.
Qed.

Lemma ceiling_is_next_floor_witness :
  let b := mkBlock "block" square 9 3 1 (5 # 2) in
  exists (fhs chs : list Q) (c : Q),
    floor_heights b = Ok fhs /\ ceiling_heights b = Ok chs /\
    nth_error chs 1 = Some c /\ nth_error fhs 2 = Some c.
Proof.
  intro b. eexists. eexists. eexists.
  split; [vm_compute; reflexivity |].
  split; [vm_compute; reflexivity |]. split; [reflexivity |].
  apply (ceiling_is_next_floor b _ _ 1%nat _ eq_refl eq_refl);
    [apply Nat.ltb_lt; reflexivity | reflexivity].
Defined.

Lemma invert_translate (p : Polygon3D) (d : Vector3D) :
  invert_orientation (translate p d) = translate (invert_orientation p) d.
Proof. unfold invert_orientation, translate. now rewrite map_rev. Qed.

(** X4.  The floor of a storey is the ceiling polygon of the storey below
    with its orientation inverted: the two faces of one slab coincide. *)
Theorem floor_is_inverted_ceiling_below (b : Block) (fs cs : list group)
    (i : nat) (p : Polygon3D) :
  floors b = Ok fs -> ceilings b = Ok cs ->
  (S i < length fs)%nat ->
  nth_error cs i = Some (GList [Some p]) ->
  nth_error fs (S i) = Some (GList [Some (invert_orientation p)]).
Proof.
  intros Hfs Hcs Hlt Hp.
  destruct (Z.eq_dec (num_stories b - num_below_ground_stories b) 0)
    as [Hz | Hd].
  { destruct (surfaces_undefined b Hz) as (_ & E & _). congruence. }
  destruct (floors_defined b Hd) as (fhs & Hf & Hfs').
  destruct (ceilings_defined b Hd) as (chs & Hc & Hcs').
  rewrite Hfs' in Hfs. injection Hfs as <-.
  rewrite Hcs' in Hcs. injection Hcs as <-.
  rewrite length_map in Hlt.
  assert (Hlen : length chs = length fhs).
  { rewrite (ceiling_heights_length b chs Hc).
    rewrite floor_heights_defined in Hf by exact Hd. injection Hf as <-.
    now rewrite length_map, range_length. }
  rewrite nth_error_snoc_lt in Hp by lia.
  destruct (nth_error chs i) as [c |] eqn:Hic; [| discriminate].
  cbn [option_map] in Hp. injection Hp as <-.
  rewrite nth_error_map.
  rewrite (ceiling_is_next_floor b fhs chs i c Hf Hc Hlt Hic).
  cbn [option_map]. now rewrite invert_translate.
Qed.

Lemma floor_is_inverted_ceiling_below_witness :
  let b := mkBlock "block" square 9 3 1 (5 # 2) in
  exists (fs cs : list group) (p : Polygon3D),
    floors b = Ok fs /\ ceilings b = Ok cs /\
    nth_error cs 0 = Some (GList [Some p]) /\
    nth_error fs 1 = Some (GList [Some (invert_orientation p)]).
Proof.
  intro b. eexists. eexists. eexists.
  split; [vm_compute; reflexivity |].
  split; [vm_compute; reflexivity |]. split; [reflexivity |].
  apply (floor_is_inverted_ceiling_below b _ _ 0%nat _ eq_refl eq_refl);
    [apply Nat.ltb_lt; reflexivity | reflexivity].
Defined.

(** ** Elevations, entry by entry *)

Lemma floor_height_at (b : Block) (fhs : list Q) (i : nat) (f : Q) :
  floor_heights b = Ok fhs -> nth_error fhs i = Some f ->
  (num_stories b - num_below_ground_stories b <> 0)%Z /\
  (i < Z.to_nat (num_stories b))%nat /\
  f = lowest_floor_level b
      + height b / inject_Z (num_stories b - num_below_ground_stories b)
        * inject_Z (Z.of_nat i).
Proof.
  intros Hf Hif.
  destruct (Z.eq_dec (num_stories b - num_below_ground_stories b) 0)
    as [Hz | Hd].
  { destruct (heights_undefined b Hz) as [E _]. congruence. }
  rewrite floor_heights_defined in Hf by exact Hd. injection Hf as <-.
  assert (Hi : (i < Z.to_nat (num_stories b))%nat).
  { destruct (Nat.lt_ge_cases i (Z.to_nat (num_stories b))) as [Hlt | Hge];
      [exact Hlt | exfalso].
    rewrite (proj2 (nth_error_None _ _)) in Hif; [discriminate |].
    rewrite length_map, range_length. exact Hge. }
  rewrite nth_error_map_range in Hif by exact Hi.
  injection Hif as <-. repeat split; assumption.
Qed.





(** X7.  The lowest floor is at [-(B * G)], whatever the height and the
    storey count: the first entry of [floor_heights] is
    [lowest_floor_level] plus zero storey heights. *)
Theorem lowest_floor_elevation (b : Block) (fhs : list Q) (f0 : Q) :
  floor_heights b = Ok fhs ->
  nth_error fhs 0 = Some f0 ->
  f0 == lowest_floor_level b /\
  f0 == - (inject_Z (num_below_ground_stories b)
           * below_ground_storey_height b).
Proof.
  intros Hf H0.
  destruct (floor_height_at b fhs _ f0 Hf H0) as (_ & _ & ->).
  unfold lowest_floor_level.
  change (inject_Z (Z.of_nat 0)) with 0. split; ring.
Qed.

Lemma lowest_floor_elevation_witness :
  let b := mkBlock "block" square 9 3 1 (5 # 2) in
  exists (fhs : list Q) (f0 : Q),
    floor_heights b = Ok fhs /\ nth_error fhs 0 = Some f0 /\
    f0 == - (5 # 2).
Proof.
  intro b.
  pose (fhs := [lowest_floor_level b + 9 / inject_Z 2 * inject_Z 0;
                lowest_floor_level b + 9 / inject_Z 2 * inject_Z 1;
                lowest_floor_level b + 9 / inject_Z 2 * inject_Z 2]).
  assert (Hf : floor_heights b = Ok fhs) by reflexivity.
  destruct (lowest_floor_elevation b fhs _ Hf eq_refl) as [_ E0].
  eexists. eexists.
  split; [exact Hf |]. split; [reflexivity |].
  rewrite E0. reflexivity.
Defined.

(** ** Stories and surfaces *)

Lemma nth_error_zip_stories_inv (fs cs : list group)
    (ws : list (list Polygon3D)) (rs : list group) (n : Z) (i : nat)
    (st : Storey) :
  nth_error (zip_stories n fs cs ws rs) i = Some st ->
  storey_no st = (n + Z.of_nat i)%Z /\
  nth_error fs i = Some (st_floors st) /\
  nth_error cs i = Some (st_ceilings st) /\
  nth_error ws i = Some (st_walls st) /\
  nth_error rs i = Some (st_roofs st).
Proof.
  revert cs ws rs n i.
  induction fs as [| f0 fs IH]; intros [| c0 cs] [| w0 ws] [| r0 rs] n i;
    cbn [zip_stories]; try (destruct i; discriminate).
  destruct i as [| i]; cbn [nth_error].
  - intros E. injection E as <-. cbn. repeat split. lia.
  - intros E. destruct (IH cs ws rs (n + 1)%Z i E) as (Hn & Hrest).
    split; [lia | exact Hrest].
Qed.

Lemma surfaces_defined (b : Block) :
  (num_stories b - num_below_ground_stories b <> 0)%Z ->
  exists (fs cs : list group) (ws : list (list Polygon3D)) (rs : list group),
    surfaces b = Ok (mkBlockSurfaces ws cs rs fs) /\
    stories b = Ok (zip_stories (- num_below_ground_stories b) fs cs ws rs) /\
    length fs = Z.to_nat (num_stories b) /\
    length ws = Z.to_nat (num_stories b) /\
    length cs = S (pred (Z.to_nat (num_stories b))) /\
    length rs = S (pred (Z.to_nat (num_stories b))).
Proof.
  intros Hd.
  destruct (stories_defined b Hd)
    as (fs & cs & ws & rs & Hfs & Hcs & Hws & Hrs & Hsts).
  destruct (walls_length b Hd) as (ws' & Hws' & Hwl).
  destruct (groups_length b Hd)
    as (fs' & cs' & rs' & Hfs' & Hcs' & Hrs' & Hfl & Hcl & Hrl).
  assert (ws' = ws) by congruence.
  assert (fs' = fs) by congruence.
  assert (cs' = cs) by congruence.
  assert (rs' = rs) by congruence. subst ws' fs' cs' rs'.
  exists fs, cs, ws, rs.
  split; [unfold surfaces; now rewrite Hws, Hcs, Hrs, Hfs |].
  repeat split; assumption.
Qed.

(** X1.  [stories] is [surfaces] cut storey by storey: it has one storey
    per floor elevation, storey i is numbered [-B + i] and holds entry i of
    the floors, ceilings, walls and roofs lists of [surfaces]. *)
Theorem stories_cut_surfaces (b : Block) (s : BlockSurfaces)
    (sts : list Storey) :
  surfaces b = Ok s -> stories b = Ok sts ->
  length sts = Z.to_nat (num_stories b) /\
  forall (i : nat) (st : Storey),
    nth_error sts i = Some st ->
    storey_no st = (- num_below_ground_stories b + Z.of_nat i)%Z /\
    nth_error (bs_floors s) i = Some (st_floors st) /\
    nth_error (bs_ceilings s) i = Some (st_ceilings st) /\
    nth_error (bs_walls s) i = Some (st_walls st) /\
    nth_error (bs_roofs s) i = Some (st_roofs st).
Proof.
  intros Hs Hsts.
  destruct (Z.eq_dec (num_stories b - num_below_ground_stories b) 0)
    as [Hz | Hd].
  { destruct (surfaces_undefined b Hz) as (_ & _ & _ & _ & E & _).
    congruence. }
  destruct (surfaces_defined b Hd)
    as (fs & cs & ws & rs & Hs' & Hsts' & Hfl & Hwl & Hcl & Hrl).
  rewrite Hs' in Hs. injection Hs as <-.
  rewrite Hsts' in Hsts. injection Hsts as <-.
  split; [apply zip_stories_length; lia |].
  intros i st Hi. cbn [bs_floors bs_ceilings bs_walls bs_roofs].
  now apply nth_error_zip_stories_inv.
Qed.

Lemma stories_cut_surfaces_witness :
  let b := mkBlock "block" square 9 3 1 (5 # 2) in
  exists (sts : list Storey) (ground : Storey),
    stories b = Ok sts /\ length sts = 3%nat /\
    nth_error sts 1 = Some ground /\ storey_no ground = 0%Z.
Proof.
  intro b.
  destruct (surfaces b) as [s | e] eqn:Hs; [| discriminate Hs].
  destruct (stories b) as [sts | e] eqn:Hsts; [| discriminate Hsts].
  destruct (stories_cut_surfaces b s sts Hs Hsts) as [Hlen Hall].
  destruct (nth_error sts 1) as [ground |] eqn:Hg.
  2: { apply nth_error_None in Hg. rewrite Hlen in Hg. cbn in Hg. lia. }
  exists sts, ground.
  split; [reflexivity |]. split; [exact Hlen |]. split; [exact Hg |].
  destruct (Hall 1%nat ground Hg) as [Hn _]. exact Hn.
Defined.

(** X2.  A storey count of zero or less (with N - B non-zero) gives no
    floor elevations, hence no floors, no walls and no storeys; [ceilings]
    and [roofs] still hold their one appended entry, the placeholder and the
    roof polygon. *)
Theorem no_storeys_still_a_roof (b : Block) :
  (num_stories b <= 0)%Z ->
  (num_stories b - num_below_ground_stories b <> 0)%Z ->
  floor_heights b = Ok [] /\ ceiling_heights b = Ok [] /\
  walls b = Ok [] /\ floors b = Ok [] /\
  ceilings b = Ok [GStr EmptyString] /\
  roofs b = Ok [GList [Some (translate (footprint b)
                                       (V3 0 0 (height b)))]] /\
  stories b = Ok [].
Proof.
  intros HN Hd.
  assert (Hr : range (num_stories b) = []).
  { unfold range. now replace (Z.to_nat (num_stories b)) with 0%nat by lia. }
  assert (Hf : floor_heights b = Ok [])
    by (rewrite floor_heights_defined, Hr by exact Hd; reflexivity).
  assert (Hc : ceiling_heights b = Ok [])
    by (rewrite ceiling_heights_defined, Hr by exact Hd; reflexivity).
  assert (Hfl : floors b = Ok []) by (unfold floors; now rewrite Hf).
  assert (Hw : walls b = Ok []) by (unfold walls; now rewrite Hf, Hc).
  assert (Hce : ceilings b = Ok [GStr EmptyString])
    by (unfold ceilings; now rewrite Hc).
  assert (Hro : roofs b = Ok [GList [Some (translate (footprint b)
                                                     (V3 0 0 (height b)))]])
    by (unfold roofs; now rewrite Hc).
  repeat split; try assumption.
  unfold stories. now rewrite Hfl, Hce, Hw, Hro.
Qed.

Lemma no_storeys_still_a_roof_witness :
  let b := mkBlock "block" square 9 0 1 (5 # 2) in
  floors b = Ok [] /\ stories b = Ok [] /\
  ceilings b = Ok [GStr EmptyString].
Proof.
  intro b.
  assert (HN : (num_stories b <= 0)%Z) by (cbn; lia).
  assert (Hd : (num_stories b - num_below_ground_stories b <> 0)%Z)
    by (cbn; lia).
  destruct (no_storeys_still_a_roof b HN Hd)
    as (_ & _ & _ & Hfl & Hce & _ & Hst).
  repeat split; assumption.
Defined.

(** ** Walls of one storey *)

Lemma edges_endpoints (p : Polygon3D) (e : Segment) :
  In e (edges p) -> In (p1 e) p /\ In (p2 e) p.
Proof.
  unfold edges. intros Hin. apply in_map_iff in Hin.
  destruct Hin as ([v w] & <- & Hin). cbn [p1 p2 fst snd].
  split; [exact (in_combine_l _ _ _ _ Hin) |].
  pose proof (in_combine_r _ _ _ _ Hin) as Hr.
  apply in_app_or in Hr. destruct p as [| a t]; [destruct Hr; contradiction |].
  destruct Hr as [Hr | Hr].
  - now right.
  - destruct Hr as [<- | []]. now left.
Qed.

Lemma nth_error_edges_inv (p : Polygon3D) (j : nat) (e : Segment) :
  nth_error (edges p) j = Some e ->
  nth_error p j = Some (p1 e) /\
  nth_error p (S j mod length p) = Some (p2 e).
Proof.
  intros He.
  assert (Hj : (j < length p)%nat).
  { rewrite <- edges_length. apply nth_error_Some. rewrite He. discriminate. }
  destruct (nth_error p j) as [v |] eqn:Hv.
  2: { apply nth_error_None in Hv. lia. }
  destruct (nth_error p (S j mod length p)) as [w |] eqn:Hw.
  2: { apply nth_error_None in Hw.
       pose proof (Nat.mod_upper_bound (S j) (length p)). lia. }
  rewrite (nth_error_edges p j v w Hv Hw) in He. injection He as <-.
  split; reflexivity.
Qed.

(** The storey behind entry [i] of [walls]. *)
Lemma storey_walls_at (b : Block) (ws : list (list Polygon3D)) (i : nat)
    (sw : list Polygon3D) :
  walls b = Ok ws -> nth_error ws i = Some sw ->
  exists (fhs chs : list Q) (f c : Q),
    floor_heights b = Ok fhs /\ ceiling_heights b = Ok chs /\
    nth_error fhs i = Some f /\ nth_error chs i = Some c /\
    sw = map (fun e => make_wall e f c) (edges (footprint b)).
Proof.
  intros Hws Hsw.
  destruct (Z.eq_dec (num_stories b - num_below_ground_stories b) 0)
    as [Hz | Hd].
  { destruct (surfaces_undefined b Hz) as (E & _). congruence. }
  destruct (walls_defined b Hd) as (fhs & chs & Hf & Hc & Hws').
  rewrite Hws' in Hws. injection Hws as <-.
  rewrite nth_error_map in Hsw.
  destruct (nth_error (combine fhs chs) i) as [[f c] |] eqn:Hfc;
    [| discriminate].
  cbn [option_map fst snd] in Hsw. injection Hsw as <-.
  apply nth_error_combine_inv in Hfc. destruct Hfc as [Hif Hic].
  exists fhs, chs, f, c. repeat split; assumption.
Qed.

(** X8.  The walls of a storey form a closed ring: the last two corners of
    each wall are the first two corners of the next wall, taken in the
    opposite order, and the last wall is followed by the first. *)
Theorem walls_form_a_ring (b : Block) (ws : list (list Polygon3D))
    (i j : nat) (sw : list Polygon3D) (w1 w2 : Polygon3D) :
  walls b = Ok ws -> nth_error ws i = Some sw ->
  nth_error sw j = Some w1 ->
  nth_error sw (S j mod length sw) = Some w2 ->
  length w1 = 4%nat /\
  nth_error w1 2 = nth_error w2 1 /\
  nth_error w1 3 = nth_error w2 0.
Proof.
  intros Hws Hsw H1 H2.
  destruct (storey_walls_at b ws i sw Hws Hsw)
    as (fhs & chs & f & c & _ & _ & _ & _ & ->).
  rewrite length_map, edges_length in H2.
  rewrite nth_error_map in H1, H2.
  destruct (nth_error (edges (footprint b)) j) as [e1 |] eqn:He1;
    [| discriminate].
  destruct (nth_error (edges (footprint b)) (S j mod length (footprint b)))
    as [e2 |] eqn:He2; [| discriminate].
  cbn [option_map] in H1, H2. injection H1 as <-. injection H2 as <-.
  apply nth_error_edges_inv in He1, He2.
  destruct He1 as [_ He1]. destruct He2 as [He2 _].
  assert (E : p2 e1 = p1 e2) by congruence.
  unfold make_wall. cbn [length nth_error]. rewrite E. repeat split.
Qed.

Lemma walls_form_a_ring_witness :
  let b := mkBlock "block" square 9 3 1 (5 # 2) in
  exists (ws : list (list Polygon3D)) (sw : list Polygon3D)
         (w1 w2 : Polygon3D),
    walls b = Ok ws /\ nth_error ws 0 = Some sw /\
    nth_error sw 3 = Some w1 /\ nth_error sw 0 = Some w2 /\
    nth_error w1 2 = nth_error w2 1 /\ nth_error w1 3 = nth_error w2 0.
Proof.
  intro b.
  destruct (walls b) as [ws | e] eqn:Hws; [| discriminate Hws].
  destruct (nth_error ws 0) as [sw |] eqn:Hsw.
  2: { exfalso. injection Hws as <-. discriminate Hsw. }
  destruct (nth_error sw 3) as [w1 |] eqn:H1.
  2: { exfalso. injection Hws as <-. injection Hsw as <-. discriminate H1. }
  destruct (nth_error sw 0) as [w2 |] eqn:H2.
  2: { exfalso. injection Hws as <-. injection Hsw as <-. discriminate H2. }
  assert (Hlen : length sw = 4%nat).
  { injection Hws as <-. injection Hsw as <-. reflexivity. }
  assert (H2' : nth_error sw (4 mod length sw) = Some w2)
    by (rewrite Hlen; exact H2).
  destruct (walls_form_a_ring b ws 0 3 sw w1 w2 Hws Hsw H1 H2')
    as (_ & Ha & Hb).
  exists ws, sw, w1, w2.
  split; [reflexivity |]. split; [exact Hsw |].
  split; [exact H1 |]. split; [exact H2 |]. split; assumption.
Defined.

(** X9.  Every wall of a storey stands on the storey's floor polygon and
    reaches the storey's ceiling polygon: its two lower corners are vertices
    of the floor, and where the storey has a ceiling polygon its two upper
    corners are vertices of it. *)
Theorem walls_meet_floor_and_ceiling (b : Block) (fs cs : list group)
    (ws : list (list Polygon3D)) (i : nat) (sw : list Polygon3D)
    (w fl : Polygon3D) :
  floors b = Ok fs -> ceilings b = Ok cs -> walls b = Ok ws ->
  nth_error ws i = Some sw -> In w sw ->
  nth_error fs i = Some (GList [Some fl]) ->
  exists A B C D : Vector3D,
    w = [A; B; C; D] /\ In B fl /\ In C fl /\
    forall ce : Polygon3D,
      nth_error cs i = Some (GList [Some ce]) -> In A ce /\ In D ce.
Proof.
  intros Hfs Hcs Hws Hsw Hw Hfl.
  destruct (storey_walls_at b ws i sw Hws Hsw)
    as (fhs & chs & f & c & Hf & Hc & Hif & Hic & ->).
  destruct (floor_height_at b fhs i f Hf Hif) as (Hd & Hi & _).
  destruct (floors_defined b Hd) as (fhs' & Hf' & Hfs').
  destruct (ceilings_defined b Hd) as (chs' & Hc' & Hcs').
  assert (fhs' = fhs) by congruence.
  assert (chs' = chs) by congruence. subst fhs' chs'.
  rewrite Hfs' in Hfs. injection Hfs as <-.
  rewrite Hcs' in Hcs. injection Hcs as <-.
  rewrite nth_error_map, Hif in Hfl. cbn [option_map] in Hfl.
  injection Hfl as <-.
  apply in_map_iff in Hw. destruct Hw as (e & <- & He).
  apply edges_endpoints in He. destruct He as [He1 He2].
  eexists. eexists. eexists. eexists.
  split; [reflexivity |].
  assert (Hin : forall (v : Vector3D) (z : Q),
             In v (footprint b) ->
             In (vadd v (V3 0 0 z))
                (translate (invert_orientation (footprint b)) (V3 0 0 z))).
  { intros v z Hv. unfold translate, invert_orientation.
    apply (in_map (fun u => vadd u (V3 0 0 z))).
    apply in_rev. now rewrite rev_involutive. }
  split; [now apply Hin |]. split; [now apply Hin |].
  intros ce Hce.
  assert (Hlt : (S i < length chs)%nat).
  { destruct (Nat.lt_ge_cases (S i) (length chs)) as [Hlt | Hge];
      [exact Hlt | exfalso].
    assert (Hlen : length chs = Z.to_nat (num_stories b))
      by (apply ceiling_heights_length; exact Hc).
    assert (i = pred (length chs)) by lia. subst i.
    rewrite nth_error_snoc_last in Hce. discriminate. }
  rewrite nth_error_snoc_lt, Hic in Hce by exact Hlt.
  cbn [option_map] in Hce. injection Hce as <-.
  unfold translate.
  split; now apply (in_map (fun u => vadd u (V3 0 0 c))).
Qed.

Lemma walls_meet_floor_and_ceiling_witness :
  let b := mkBlock "block" square 9 3 1 (5 # 2) in
  exists (ws : list (list Polygon3D)) (sw : list Polygon3D)
         (w fl : Polygon3D) (B : Vector3D),
    walls b = Ok ws /\ nth_error ws 0 = Some sw /\
    nth_error sw 0 = Some w /\ nth_error w 1 = Some B /\ In B fl.
Proof.
  intro b.
  destruct (floors b) as [fs | e] eqn:Hfs; [| discriminate Hfs].
  destruct (ceilings b) as [cs | e] eqn:Hcs; [| discriminate Hcs].
  destruct (walls b) as [ws | e] eqn:Hws; [| discriminate Hws].
  destruct (nth_error ws 0) as [sw |] eqn:Hsw.
  2: { exfalso. injection Hws as <-. discriminate Hsw. }
  destruct (nth_error sw 0) as [w |] eqn:Hw.
  2: { exfalso. injection Hws as <-. injection Hsw as <-. discriminate Hw. }
  assert (Hfl : nth_error fs 0
                = Some (GList [Some (translate
                                       (invert_orientation (footprint b))
                                       (V3 0 0 (lowest_floor_level b
                                                + 9 / inject_Z 2
                                                  * inject_Z 0)))])).
  { injection Hfs as <-. reflexivity. }
  destruct (walls_meet_floor_and_ceiling b fs cs ws 0 sw w _
              Hfs Hcs Hws Hsw (nth_error_In _ _ Hw) Hfl)
    as (A & B & C & D & -> & HB & _).
  eexists ws, sw, _, _, B.
  split; [reflexivity |]. split; [exact Hsw |]. split; [exact Hw |].
  split; [reflexivity | exact HB].
Defined.

(** ** Zones of a block's storeys *)

(** X10.  The zone of storey i keeps one wall per footprint edge of
    non-zero length when the storey's ceiling elevation differs from its
    floor elevation, and no wall at all when the two are equal. *)
Theorem zone_wall_count (b : Block) (fhs chs : list Q) (sts : list Storey)
    (i : nat) (st : Storey) (f c : Q) (nm : string) :
  floor_heights b = Ok fhs -> ceiling_heights b = Ok chs ->
  stories b = Ok sts ->
  nth_error sts i = Some st ->
  nth_error fhs i = Some f -> nth_error chs i = Some c ->
  (~ c == f ->
   length (zone_walls (Zone_init nm (storey_surfaces st)))
   = length (filter (fun e => negb (zero_length e))
                    (edges (footprint b)))) /\
  (c == f ->
   zone_walls (Zone_init nm (storey_surfaces st)) = []).
Proof.
  intros Hf Hc Hsts Hst Hif Hic.
  destruct (Z.eq_dec (num_stories b - num_below_ground_stories b) 0)
    as [Hz | Hd].
  { destruct (surfaces_undefined b Hz) as (_ & _ & _ & _ & _ & E).
    congruence. }
  destruct (stories_defined b Hd)
    as (fs & cs & ws & rs & _ & _ & Hws & _ & Hsts').
  rewrite Hsts' in Hsts. injection Hsts as <-.
  apply nth_error_zip_stories_inv in Hst.
  destruct Hst as (_ & _ & _ & Hw & _).
  destruct (storey_walls_at b ws i (st_walls st) Hws Hw)
    as (fhs' & chs' & f' & c' & Hf' & Hc' & Hif' & Hic' & Hsw).
  assert (fhs' = fhs) by congruence.
  assert (chs' = chs) by congruence. subst fhs' chs'.
  assert (f' = f) by congruence.
  assert (c' = c) by congruence. subst f' c'.
  cbn [Zone_init zone_walls storey_surfaces sd_walls]. rewrite Hsw.
  split.
  - intros Hne. apply filter_walls_length.
    + intros E. apply Hne. apply Qminus_zero_eq. exact E.
    + apply footprint_edges_level.
  - intros E. apply filter_flat_walls. rewrite E. ring.
Qed.

Lemma zone_wall_count_witness :
  let b := mkBlock "block" doubled_corner 9 3 0 (5 # 2) in
  exists (sts : list Storey) (st : Storey),
    stories b = Ok sts /\ nth_error sts 1 = Some st /\
    length (st_walls st) = 5%nat /\
    length (zone_walls (Zone_init "zone" (storey_surfaces st))) = 4%nat.
Proof.
  intro b.
  pose (fhs := [lowest_floor_level b + 9 / inject_Z 3 * inject_Z 0;
                lowest_floor_level b + 9 / inject_Z 3 * inject_Z 1;
                lowest_floor_level b + 9 / inject_Z 3 * inject_Z 2]).
  pose (chs := [lowest_floor_level b + 9 / inject_Z 3 * inject_Z 1;
                lowest_floor_level b + 9 / inject_Z 3 * inject_Z 2;
                lowest_floor_level b + 9 / inject_Z 3 * inject_Z 3]).
  assert (Hf : floor_heights b = Ok fhs) by reflexivity.
  assert (Hc : ceiling_heights b = Ok chs) by reflexivity.
  destruct (stories b) as [sts | e] eqn:Hsts; [| discriminate Hsts].
  destruct (nth_error sts 1) as [st |] eqn:Hst.
  2: { exfalso. injection Hsts as <-. discriminate Hst. }
  destruct (zone_wall_count b fhs chs sts 1 st _ _ "zone"
              Hf Hc Hsts Hst eq_refl eq_refl) as [Hcount _].
  exists sts, st. split; [reflexivity |]. split; [exact Hst |].
  split.
  - injection Hsts as <-. injection Hst as <-. reflexivity.
  - rewrite Hcount; [reflexivity |].
    intro E. vm_compute in E. discriminate E.
Defined.

(** ** Degenerate footprints *)

Lemma point_eqb_refl (a : point) : point_eqb a a = true.
Proof.
  unfold point_eqb. apply andb_true_iff.
  split; apply Qeq_bool_iff; reflexivity.
Qed.

(** X11.  A footprint of a single point counts as closed: the point is
    popped, the block is built on an empty outline, and each of its storeys
    has no wall and a floor polygon without vertices. *)
Theorem single_point_footprint (nm : string) (a : point) (H : Q) (N B : Z)
    (G : Q) :
  (N - B <> 0)%Z ->
  exists (b : Block) (ws : list (list Polygon3D)) (fs : list group),
    Block_init nm [a] H N B G = Ok b /\ coordinates b = [] /\
    walls b = Ok ws /\ floors b = Ok fs /\
    length ws = Z.to_nat N /\ length fs = Z.to_nat N /\
    (forall sw : list Polygon3D, In sw ws -> sw = []) /\
    (forall g : group, In g fs -> g = GList [Some []]).
Proof.
  intros Hd.
  set (b := mkBlock nm [] H N B G).
  assert (Hb : Block_init nm [a] H N B G = Ok b).
  { unfold Block_init. cbn [last removelast]. now rewrite point_eqb_refl. }
  assert (Hd' : (num_stories b - num_below_ground_stories b <> 0)%Z)
    by exact Hd.
  destruct (walls_defined b Hd') as (fhs & chs & _ & _ & Hws).
  destruct (walls_length b Hd') as (ws & Hws' & Hwl).
  destruct (floors_defined b Hd') as (fhs' & _ & Hfs).
  destruct (groups_length b Hd') as (fs & _ & _ & Hfs' & _ & _ & Hfl & _).
  exists b, ws, fs.
  split; [exact Hb |]. split; [reflexivity |].
  split; [exact Hws' |]. split; [exact Hfs' |].
  split; [exact Hwl |]. split; [exact Hfl |].
  split.
  - intros sw Hin. rewrite Hws in Hws'. injection Hws' as <-.
    apply in_map_iff in Hin. destruct Hin as (hc & <- & _). reflexivity.
  - intros g Hin. rewrite Hfs in Hfs'. injection Hfs' as <-.
    apply in_map_iff in Hin. destruct Hin as (fh & <- & _). reflexivity.
Qed.

Lemma single_point_footprint_witness :
  exists (b : Block) (ws : list (list Polygon3D)),
    Block_init "block" [(3, 4)] 9 2 0 (5 # 2) = Ok b /\
    coordinates b = [] /\ walls b = Ok ws /\ ws = [[]; []].
Proof.
  assert (Hd : (2 - 0 <> 0)%Z) by lia.
  destruct (single_point_footprint "block" (3, 4) 9 2 0 (5 # 2) Hd)
    as (b & ws & fs & Hb & Hc & Hws & _ & Hwl & _ & Hall & _).
  exists b, ws. split; [exact Hb |]. split; [exact Hc |].
  split; [exact Hws |].
  destruct ws as [| w0 [| w1 [| w2 ws]]]; try discriminate Hwl.
  rewrite (Hall w0 (or_introl eq_refl)).
  rewrite (Hall w1 (or_intror (or_introl eq_refl))). reflexivity.
Defined.

(** ** The coordinate list is shared with the caller *)

Lemma heap_set_same (h : heap) (r : ref) (l : list point) :
  heap_set h r l r = l.
Proof. unfold heap_set. now rewrite Nat.eqb_refl. Qed.

Lemma heap_set_other (h : heap) (r r' : ref) (l : list point) :
  r' <> r -> heap_set h r l r' = h r'.
Proof.
  intros Hne. unfold heap_set.
  destruct (Nat.eqb_spec r' r); [contradiction | reflexivity].
Qed.

(** X12.  Construction on the heap agrees with the constructor on list
    values: it fails on the same input, and on success the block read in
    the resulting heap is the block the value constructor returns.  The
    block's coordinates are the caller's list object itself, not a copy, and
    no other list is changed. *)
Theorem Block_init_obj_refines (h : heap) (nm : string) (r : ref) (H : Q)
    (N B : Z) (G : Q) :
  match Block_init_obj h nm r H N B G with
  | Ok (h', o) =>
      Block_init nm (h r) H N B G = Ok (view h' o) /\
      obj_coordinates o = r /\
      coordinates (view h' o) = h' r /\
      (length (h' r) <= length (h r))%nat /\
      forall r' : ref, r' <> r -> h' r' = h r'
  | Raise e => Block_init nm (h r) H N B G = Raise e /\ h r = []
  end.
Proof.
  unfold Block_init_obj, Block_init, view.
  destruct (h r) as [| c0 rest] eqn:Hr; [split; reflexivity |].
  destruct (point_eqb c0 (last (c0 :: rest) c0));
    cbv beta iota zeta;
    cbn [obj_name obj_coordinates obj_height obj_num_stories
         obj_num_below_ground_stories obj_below_ground_storey_height
         coordinates].
  - rewrite heap_set_same.
    split; [reflexivity |]. split; [reflexivity |]. split; [reflexivity |].
    split; [rewrite removelast_length; cbn [length]; lia |].
    intros r' Hne. now apply heap_set_other.
  - rewrite Hr. repeat split. lia.
Qed.

(** X13.  Two blocks built from the same list object share it.  The second
    construction succeeds only on a list that the first one left non-empty;
    after it both blocks have the same coordinates, and when the list was
    still closed after the first construction, the second one pops again
    and the first block's outline loses a point. *)
Theorem blocks_share_the_list (h h1 h2 : heap) (r : ref) (o1 o2 : BlockObj)
    (nm1 nm2 : string) (H1 H2 : Q) (N1 N2 B1 B2 : Z) (G1 G2 : Q) :
  Block_init_obj h nm1 r H1 N1 B1 G1 = Ok (h1, o1) ->
  Block_init_obj h1 nm2 r H2 N2 B2 G2 = Ok (h2, o2) ->
  coordinates (view h2 o1) = coordinates (view h2 o2) /\
  match coordinates (view h1 o1) with
  | [] => False
  | c0 :: rest =>
      if point_eqb c0 (last (c0 :: rest) c0)
      then coordinates (view h2 o1) = removelast (c0 :: rest) /\
           length (footprint (view h2 o1)) = length rest
      else coordinates (view h2 o1) = c0 :: rest
  end.
Proof.
  unfold Block_init_obj. intros E1 E2.
  destruct (h r) as [| a t]; [discriminate |].
  injection E1 as _ <-.
  destruct (h1 r) as [| c0 rest] eqn:Hr1; [discriminate |].
  unfold view, footprint.
  cbn [obj_coordinates coordinates].
  rewrite Hr1.
  destruct (point_eqb c0 (last (c0 :: rest) c0));
    injection E2 as <- <-; cbn [obj_coordinates].
  - split; [reflexivity |].
    rewrite !heap_set_same.
    split; [reflexivity |].
    rewrite length_map.
    change (length (removelast (c0 :: rest)) = length rest).
    rewrite removelast_length. reflexivity.
  - split; [reflexivity | exact Hr1].
Qed.

Lemma blocks_share_the_list_witness :
  exists (h1 h2 : heap) (o1 o2 : BlockObj),
    Block_init_obj example_heap "first" 0%nat 9 1 0 (5 # 2) = Ok (h1, o1) /\
    Block_init_obj h1 "second" 0%nat 9 1 0 (5 # 2) = Ok (h2, o2) /\
    coordinates (view h1 o1) = [(0, 0); (10, 0); (10, 10); (0, 0)] /\
    coordinates (view h2 o1) = [(0, 0); (10, 0); (10, 10)] /\
    coordinates (view h2 o1) = coordinates (view h2 o2).
Proof.
  eexists. eexists. eexists. eexists.
  split; [reflexivity |]. split; [reflexivity |].
  split; [reflexivity |].
  pose proof (blocks_share_the_list example_heap _ _ 0%nat _ _
                "first" "second" 9 9 1 1 0 0 (5 # 2) (5 # 2)
                eq_refl eq_refl) as [Hsame Hpop].
  split; [exact (proj1 Hpop) | exact Hsame].
Defined.

(** ** The default arguments *)

(** X14.  With the default arguments (one storey, no basement) every
    non-empty outline gives a single storey numbered 0, from elevation 0 up
    to the block height, where the roof polygon lies: the envelope is
    closed. *)
Theorem default_block_is_one_closed_storey (nm : string) (c0 : point)
    (rest : list point) (H : Q) :
  exists (b : Block) (f c : Q) (st : Storey),
    Block_init_default nm (c0 :: rest) H = Ok b /\
    floor_heights b = Ok [f] /\ f == 0 /\
    ceiling_heights b = Ok [c] /\ c == H /\
    stories b = Ok [st] /\ storey_no st = 0%Z /\
    st_ceilings st = GStr EmptyString /\
    st_roofs st = GList [Some (translate (footprint b) (V3 0 0 H))] /\
    length (st_walls st) = length (coordinates b).
Proof.
  destruct (Block_init_accepts nm c0 rest H 1 0 (5 # 2))
    as (b & Hb & _ & HH & HN & HB & HG & _).
  assert (Hs : storey_height b = Ok (H / inject_Z 1)).
  { unfold storey_height. now rewrite HN, HB, HH. }
  assert (Hf : floor_heights b
               = Ok [lowest_floor_level b + H / inject_Z 1 * inject_Z 0]).
  { unfold floor_heights. now rewrite Hs, HN. }
  assert (Hc : ceiling_heights b
               = Ok [lowest_floor_level b + H / inject_Z 1 * inject_Z 1]).
  { unfold ceiling_heights. now rewrite Hs, HN. }
  assert (Hl : lowest_floor_level b == 0).
  { unfold lowest_floor_level. rewrite HB. change (inject_Z 0) with 0. ring. }
  eexists b, _, _, _.
  split; [exact Hb |].
  split; [exact Hf |].
  split; [rewrite Hl; change (inject_Z 0) with 0; ring |].
  split; [exact Hc |].
  split; [rewrite Hl; change (inject_Z 1) with 1; field |].
  split.
  { unfold stories, floors, ceilings, walls, roofs.
    rewrite Hf, Hc, HB, HH. reflexivity. }
  cbn [storey_no st_ceilings st_roofs st_walls fst snd].
  split; [reflexivity |]. split; [reflexivity |]. split; [reflexivity |].
  now rewrite length_map, edges_length, footprint_length.
Qed.
